(** * us_army.py: the adaptive recursive tree-extraction engine

    A shallow embedding of [src/us_army.py] and the properties of its crawl
    (top-level pass, nested pass, flat extraction), of its metadata
    extractor, of its structure classifier and of its statistics fold.

    The network and the HTML parser are the program's collaborators.  They
    are modelled by their contract only:
    - a page is what [soup.select] answers for each CSS selector;
    - the web maps a URL to a page, or to nothing when [get_soup] fails;
    - [requests.compat.urljoin] is a parameter of the development. *)

From Stdlib Require Import String List Arith Lia Bool.
From stdpp Require Import base option list gmap sets strings.

Set Warnings "-register-all,-clear-no-such-hyp".
Local Open Scope string_scope.
Local Open Scope list_scope.
Local Open Scope nat_scope.

(** ** Pages and elements *)

(** What the program reads off an element: [element.get_text(strip=True)],
    [element.get('href')] ([None] when the attribute is missing) and, for
    the anchors of the top-level pass, [a_tag.find('h4')] followed by
    [get_text(strip=True)] ([None] when there is no [h4]). *)
Record Element := mkElement {
  get_text : string;
  get_href : option string;
  find_h4 : option string
}.

(** A parsed page, seen through [soup.select(selector)]. *)
Definition Document := string → list Element.

Definition select (soup : Document) (selector : string) : list Element :=
  soup selector.

Definition BASE_URL : string := "https://currentops.com".
Definition TARGET_URL : string := "https://currentops.com/units/us".

(** The [SELECTORS] table. *)
Module SELECTORS.
Definition flat_list : string := ".subords-units ul a".
Definition first_level : string :=
  ".subords-units > li > ul > li > div:nth-child(1) > a".
Definition second_level : string :=
  ".subords-units > li > ul > li > div .margin-right-5px+ a".
Definition third_level : string :=
  ".subords-units ul ul .margin-right-5px+ a".
Definition full_unit_name : string :=
  ".grippy-host, .subords-units ul ul .margin-right-5px+ a".
Definition location_name : string := ".subords-units ul ul .location a".
Definition location_details : string := ".subords-units ul ul i".
End SELECTORS.

(** The selector of the top-level pass and of the subcategory scan. *)
Definition MAIN_SELECTOR : string := "div > a:has(h4)".

(** ** Nodes of the tree *)

Inductive Kind :=
  | main_branch
  | subcategory
  | level_item (n : nat)   (* f'level_{n}_item' *)
  | flat_item.

Global Instance Kind_eq_dec : EqDecision Kind.
Proof. solve_decision. Defined.

(** A node of the nested pass or of the flat extraction: the dict
    [{'name', 'url', 'type', **additional_info}], with the key ['subunits']
    when the code sets it. *)
Inductive Item := mkItem {
  item_name : string;
  item_url : string;
  item_type : Kind;
  item_info : gmap string string;
  item_subunits : option (list Item)
}.

Record Subcategory := mkSubcategory {
  subcat_name : string;
  subcat_url : string;
  subcat_type : Kind;
  subcat_info : gmap string string;
  subcat_units : option (list Item)
}.

Record Component := mkComponent {
  comp_name : string;
  comp_url : string;
  comp_type : Kind;
  comp_info : gmap string string;
  comp_subcategories : option (list Subcategory)
}.

(** All the nodes below and including an item, parents first. *)
Fixpoint item_nodes (i : Item) : list Item :=
  match i with
  | mkItem _ _ _ _ None => [i]
  | mkItem _ _ _ _ (Some l) => i :: flat_map item_nodes l
  end.

(** [d.get(key, [])] for a child collection. *)
Definition get_list {A} (field : option (list A)) : list A :=
  match field with Some l => l | None => [] end.

(** [if l: node[key] = l]: the key is set only for a non-empty list. *)
Definition set_if_nonempty {A} (l : list A) : option (list A) :=
  match l with [] => None | _ :: _ => Some l end.

(** ** Effects: the visited set and the log of what the run did *)

Inductive adder := by_nested | by_main.

Inductive event :=
  | EvFetch (url : option string)             (* get_soup(url) *)
  | EvAdd (who : adder) (url : option string) (* visited_urls.add(url) *)
  | EvSleep (ms : nat).                       (* time.sleep(ms / 1000) *)

Global Instance adder_eq_dec : EqDecision adder.
Proof. solve_decision. Defined.
Global Instance event_eq_dec : EqDecision event.
Proof. solve_decision. Defined.

(** The global [visited_urls].  A Python set holds any hashable value, and
    the top-level pass tests [href in visited_urls] with an [href] that may
    be [None]: the elements are optional strings. *)
Definition Visited := gset (option string).

(** A computation reads and updates [visited_urls] and emits events. *)
Definition M (A : Type) : Type := Visited → A * Visited * list event.

Global Instance M_ret : MRet M := λ A x v, (x, v, []).
Global Instance M_bind : MBind M := λ A B f m v,
  let '(a, v1, e1) := m v in
  let '(b, v2, e2) := f a v1 in
  (b, v2, e1 ++ e2).

Definition result {A} (r : A * Visited * list event) : A := r.1.1.
Definition visited {A} (r : A * Visited * list event) : Visited := r.1.2.
Definition events {A} (r : A * Visited * list event) : list event := r.2.

Global Arguments result {A} !r /.
Global Arguments visited {A} !r /.
Global Arguments events {A} !r /.

Definition visited_mem (url : option string) : M bool :=
  λ v, (bool_decide (url ∈ v), v, []).
Definition visited_add (who : adder) (url : option string) : M unit :=
  λ v, (tt, {[url]} ∪ v, [EvAdd who url]).
Definition visited_clear : M unit := λ v, (tt, ∅, []).
Definition sleep (ms : nat) : M unit := λ v, (tt, v, [EvSleep ms]).

(** [for x in l: ...], where the body either appends one node to the
    accumulated list or moves on ([continue]). *)
Fixpoint for_each {A B} (body : A → M (option B)) (l : list A) : M (list B) :=
  match l with
  | [] => mret []
  | x :: xs =>
      r ← body x;
      rs ← for_each body xs;
      mret (match r with Some y => y :: rs | None => rs end)
  end.

(** The URLs fetched, and the URLs added to the visited set, in order. *)
Definition fetches (es : list event) : list (option string) :=
  omap (λ e, match e with EvFetch u => Some u | _ => None end) es.
Definition adds (who : adder) (es : list event) : list (option string) :=
  omap (λ e, match e with
             | EvAdd w u => if decide (w = who) then Some u else None
             | _ => None end) es.
Definition all_adds (es : list event) : list (option string) :=
  omap (λ e, match e with EvAdd _ u => Some u | _ => None end) es.

(** [not name] on a string. *)
Definition is_empty (s : string) : bool :=
  match s with EmptyString => true | String _ _ => false end.

Section Crawler.

(** The web: the page behind a URL, or [None] when the request fails
    (network error, timeout, non-success status). *)
Variable web : string → option Document.

(** [requests.compat.urljoin]. *)
Variable urljoin : string → string → string.

(** [get_soup]: every exception is caught and turned into [None]; for
    [url = None] the request raises before any page is read. *)
Definition get_soup (url : option string) : M (option Document) :=
  λ v, (url ≫= web, v, [EvFetch url]).

(** [if href and not href.startswith('http'): href = urljoin(base, href)] *)
Definition resolve (base href : string) : string :=
  if negb (is_empty href) && negb (String.prefix "http" href)
  then urljoin base href else href.

Definition has_nested_structure (soup : Document) : bool :=
  0 <? List.length (select soup SELECTORS.second_level).

Definition extract_additional_info (soup : Document) : gmap string string :=
  let additional_info : gmap string string := ∅ in
  let additional_info :=
    match select soup SELECTORS.full_unit_name with
    | e :: _ => <["full_unit_name" := get_text e]> additional_info
    | [] => additional_info
    end in
  let additional_info :=
    match select soup SELECTORS.location_name with
    | e :: _ => <["location_name" := get_text e]> additional_info
    | [] => additional_info
    end in
  let additional_info :=
    match select soup SELECTORS.location_details with
    | e :: _ => <["location_details" := get_text e]> additional_info
    | [] => additional_info
    end in
  additional_info.

(** [extract_additional_info(item_soup) if item_soup else {}] *)
Definition info_of (item_soup : option Document) : gmap string string :=
  match item_soup with
  | Some soup => extract_additional_info soup
  | None => ∅
  end.

(** One turn of the loop of [scrape_flat_structure]. *)
Definition flat_step (base_url : string) (element : Element)
  : M (option Item) :=
  let name := get_text element in
  match get_href element with
  | None => mret None
  | Some href =>
      if is_empty name then mret None else
      let href := resolve base_url href in
      item_soup ← get_soup (Some href);
      mret (Some (mkItem name href flat_item (info_of item_soup) None))
  end.

Definition scrape_flat_structure (soup : Document) (base_url : string)
  : M (list Item) :=
  for_each (flat_step base_url) (select soup SELECTORS.flat_list).

Definition level_selector (depth : nat) : string :=
  match depth with
  | 0 => SELECTORS.first_level
  | 1 => SELECTORS.second_level
  | _ => SELECTORS.third_level
  end.

(** One turn of the loop of [scrape_nested_structure]; [rec] is the
    recursive call. *)
Definition nested_step (rec : string → nat → nat → M (list Item))
    (depth max_depth : nat) (element : Element) : M (option Item) :=
  let name := get_text element in
  match get_href element with
  | None => mret None
  | Some href =>
      if is_empty name then mret None else
      let href := resolve BASE_URL href in
      seen ← visited_mem (Some href);
      if seen : bool then mret None else
      item_soup ← get_soup (Some href);
      subunits ←
        (if depth <? max_depth then
           subunits ←
             match item_soup with
             | Some soup =>
                 if has_nested_structure soup then
                   sub_items ← rec href (depth + 1) max_depth;
                   mret (set_if_nonempty sub_items)
                 else
                   flat_items ← scrape_flat_structure soup href;
                   mret (set_if_nonempty flat_items)
             | None => mret None
             end;
           _ ← sleep 300;
           mret subunits
         else mret None);
      mret (Some (mkItem name href (level_item (depth + 1))
                    (info_of item_soup) subunits))
  end.

(** The body of [scrape_nested_structure].  ([page_info], computed from
    the page and never used, is left out.) *)
Definition nested_body (rec : string → nat → nat → M (list Item))
    (url : string) (depth max_depth : nat) : M (list Item) :=
  seen ← visited_mem (Some url);
  if (seen : bool) || (max_depth <? depth) then mret [] else
  _ ← visited_add by_nested (Some url);
  soup ← get_soup (Some url);
  match soup with
  | None => mret []
  | Some soup =>
      for_each (nested_step rec depth max_depth)
               (select soup (level_selector depth))
  end.

(** The recursion of [scrape_nested_structure] goes from [depth] to
    [depth + 1] and stops beyond [max_depth]: it is structural in
    [max_depth + 1 - depth]. *)
Fixpoint nested_rec (k : nat) (url : string) (depth max_depth : nat)
  : M (list Item) :=
  match k with
  | 0 => mret []
  | S k' => nested_body (nested_rec k') url depth max_depth
  end.

Definition scrape_nested_structure (url : string) (depth max_depth : nat)
  : M (list Item) :=
  nested_rec (S max_depth - depth) url depth max_depth.

(** One turn of the subcategory loop of [scrape_main_components].
    [get_soup] answers [None] for [sub_href = None] (see
    [get_soup_None]), so a page comes with a URL. *)
Definition subcategory_step (sub_a_tag : Element) : M (option Subcategory) :=
  match find_h4 sub_a_tag with
  | None => mret None
  | Some sub_name =>
      let sub_href := resolve BASE_URL <$> get_href sub_a_tag in
      sub_soup ← get_soup sub_href;
      match sub_soup, sub_href with
      | Some sub_soup, Some sub_href =>
          let subcat_info := extract_additional_info sub_soup in
          units ←
            (if has_nested_structure sub_soup then
               nested_items ← scrape_nested_structure sub_href 0 3;
               mret (set_if_nonempty nested_items)
             else
               flat_items ← scrape_flat_structure sub_soup sub_href;
               mret (set_if_nonempty flat_items));
          _ ← sleep 500;
          mret (Some (mkSubcategory sub_name sub_href subcategory
                        subcat_info units))
      | _, _ => mret None
      end
  end.

(** One turn of the main loop of [scrape_main_components]. *)
Definition component_step (a_tag : Element) : M (option Component) :=
  match find_h4 a_tag with
  | None => mret None
  | Some name =>
      let href := resolve BASE_URL <$> get_href a_tag in
      seen ← visited_mem href;
      if seen : bool then mret None else
      soup_branch ← get_soup href;
      match soup_branch, href with
      | Some soup_branch, Some href =>
          let branch_info := extract_additional_info soup_branch in
          subcategories ←
            for_each subcategory_step (select soup_branch MAIN_SELECTOR);
          _ ← sleep 1000;
          _ ← visited_add by_main (Some href);
          mret (Some (mkComponent name href main_branch branch_info
                        (set_if_nonempty subcategories)))
      | _, _ => mret None
      end
  end.

Definition scrape_main_components : M (list Component) :=
  _ ← visited_clear;
  soup ← get_soup (Some TARGET_URL);
  match soup with
  | None => mret []
  | Some soup => for_each component_step (select soup MAIN_SELECTOR)
  end.

(** What one turn of the loop of the nested pass does below its item:
    nothing at [max_depth] or without a page, the recursive call on a
    nested page, the flat extraction on a flat one.  (Used to state what a
    turn computes, see [nested_step_run].) *)
Definition children_run (rec : string → nat → nat → M (list Item))
    (depth max_depth : nat) (href : string) (v : Visited)
  : list Item * Visited * list event :=
  if depth <? max_depth then
    match web href with
    | Some soup =>
        if has_nested_structure soup then rec href (depth + 1) max_depth v
        else scrape_flat_structure soup href v
    | None => ([], v, [])
    end
  else ([], v, []).

(** What the subcategory scan does below a subcategory whose page is
    [sub_soup]. *)
Definition units_run (sub_soup : Document) (sub_href : string) (v : Visited)
  : list Item * Visited * list event :=
  if has_nested_structure sub_soup
  then scrape_nested_structure sub_href 0 3 v
  else scrape_flat_structure sub_soup sub_href v.

End Crawler.

(** ** Statistics *)

Record Stats := mkStats {
  stats_main_branches : nat;
  stats_subcategories : nat;
  stats_units : nat;
  stats_subunits : nat;
  stats_flat_items : nat;
  stats_with_location : nat;
  stats_with_full_name : nat
}.

(** [key in node], for the keys that come from [additional_info]. *)
Definition has_key (key : string) (info : gmap string string) : bool :=
  bool_decide (is_Some (info !! key)).

Definition has_location (info : gmap string string) : bool :=
  has_key "location_name" info || has_key "location_details" info.

Definition b2n (b : bool) : nat := if b then 1 else 0.

(** The tuple [(count, flat_count, location_count, fullname_count)]. *)
Definition Counts : Type := nat * nat * nat * nat.

(** The first component, [count]. *)
Definition count_of (c : Counts) : nat := c.1.1.1.

Definition add4 (a b : Counts) : Counts :=
  let '(c1, f1, l1, n1) := a in
  let '(c2, f2, l2, n2) := b in
  (c1 + c2, f1 + f2, l1 + l2, n1 + n2).

(** What one turn of the loop of [count_subunits] adds for its [item]:
    the item's own flags, [len(subunits)] and the counts of the recursive
    call on [subunits]; [item.get('subunits', [])] is empty when the key
    is absent. *)
Fixpoint count_item (item : Item) : Counts :=
  match item with
  | mkItem _ _ type info subunits =>
      let own : Counts :=
        (0, b2n (bool_decide (type = flat_item)),
         b2n (has_location info), b2n (has_key "full_unit_name" info)) in
      match subunits with
      | None => own
      | Some subunits =>
          add4 own
            (add4 (List.length subunits, 0, 0, 0)
               ((fix count_subunits (items : list Item) : Counts :=
                   match items with
                   | [] => (0, 0, 0, 0)
                   | item :: items =>
                       add4 (count_item item) (count_subunits items)
                   end) subunits))
      end
  end.

Fixpoint count_subunits (items : list Item) : Counts :=
  match items with
  | [] => (0, 0, 0, 0)
  | item :: items => add4 (count_item item) (count_subunits items)
  end.

Definition stats_add_counts (units : nat) (c : Counts) (stats : Stats) : Stats :=
  let '(subunit_count, flat_count, loc_count, full_count) := c in
  mkStats (stats_main_branches stats) (stats_subcategories stats)
          (stats_units stats + units)
          (stats_subunits stats + subunit_count)
          (stats_flat_items stats + flat_count)
          (stats_with_location stats + loc_count)
          (stats_with_full_name stats + full_count).

(** The flags of a branch or of a subcategory. *)
Definition stats_add_flags (subcats : nat) (info : gmap string string)
    (stats : Stats) : Stats :=
  mkStats (stats_main_branches stats) (stats_subcategories stats + subcats)
          (stats_units stats) (stats_subunits stats) (stats_flat_items stats)
          (stats_with_location stats + b2n (has_location info))
          (stats_with_full_name stats + b2n (has_key "full_unit_name" info)).

(** The body of [for subcat in subcats]. *)
Definition count_subcat (stats : Stats) (subcat : Subcategory) : Stats :=
  let stats := stats_add_flags 0 (subcat_info subcat) stats in
  let units := get_list (subcat_units subcat) in
  stats_add_counts (List.length units) (count_subunits units) stats.

(** The body of [for branch in data]. *)
Definition count_branch (stats : Stats) (branch : Component) : Stats :=
  let subcats := get_list (comp_subcategories branch) in
  let stats := stats_add_flags (List.length subcats) (comp_info branch) stats in
  fold_left count_subcat subcats stats.

Definition count_statistics (data : list Component) : Stats :=
  let stats := mkStats (List.length data) 0 0 0 0 0 0 in
  fold_left count_branch data stats.

(** ** What the statistics are meant to count *)

(** The nodes reachable from an item through child edges, the item itself
    left out. *)
Definition descendants (i : Item) : list Item := tail (item_nodes i).

Definition sum_list (l : list nat) : nat := foldr Nat.add 0 l.

(** The sum, over all main branches' subcategories, of the lengths of their
    immediate unit lists. *)
Definition immediate_units (data : list Component) : nat :=
  sum_list (map (λ branch,
    sum_list (map (λ subcat, List.length (get_list (subcat_units subcat)))
                  (get_list (comp_subcategories branch)))) data).

(** The number of nodes reachable through child edges from the top-level
    unit lists, the top-level units themselves left out. *)
Definition nested_below_units (data : list Component) : nat :=
  sum_list (map (λ branch,
    sum_list (map (λ subcat,
                 List.length (flat_map descendants (get_list (subcat_units subcat))))
                  (get_list (comp_subcategories branch)))) data).

(** ** Example pages *)

(** A page without any element the program looks for. *)
Definition blank_page : Document := λ _, [].

(** [<a href=href>name</a>] *)
Definition link (name href : string) : Element :=
  mkElement name (Some href) None.

(** [<a href=href><h4>name</h4></a>] *)
Definition heading_link (name href : string) : Element :=
  mkElement name (Some href) (Some name).

(** A directory page: one [<div><a href=..><h4>..</h4></a></div>] per
    link, matched by [div > a:has(h4)] only. *)
Definition heading_page (links : list Element) : Document := λ selector,
  if decide (selector = MAIN_SELECTOR) then links else [].

(** A nested roster,
    [<ul class="subords-units"><li><ul>
       <li><div><span class="margin-right-5px"></span><a href=..>..</a></div></li>
       ...
     </ul></li></ul>]:
    every link is the child of a first [div] and follows the marker, so the
    first-level, second-level and flat-list selectors match all of them;
    there is no [ul] two levels down, so the other selectors match
    nothing. *)
Definition marked_roster_page (links : list Element) : Document := λ selector,
  if decide (selector = SELECTORS.first_level) then links
  else if decide (selector = SELECTORS.second_level) then links
  else if decide (selector = SELECTORS.flat_list) then links
  else [].

(** A flat roster,
    [<ul class="subords-units"><li><ul><li><a href=..>..</a></li>...</ul></li></ul>]:
    only the flat-list selector matches. *)
Definition flat_roster_page (links : list Element) : Document := λ selector,
  if decide (selector = SELECTORS.flat_list) then links else [].

(** A page whose only match is an icon without text,
    [<ul class="subords-units"><li><ul><li><ul><li><i></i></li></ul></li></ul></li></ul>]. *)
Definition icon_page : Document := λ selector,
  if decide (selector = SELECTORS.location_details)
  then [mkElement "" None None] else [].

(** [urljoin] for a base without path and a reference that starts with a
    slash; the example pages only use absolute links, which are never
    joined. *)
Definition urljoin_root (base href : string) : string := (base ++ href)%string.

Definition army_url : string := "https://currentops.com/units/us/army".
Definition forscom_url : string := "https://currentops.com/units/us/army/forscom".
Definition corps_url : string := "https://currentops.com/unit/1".
Definition brigade_url : string := "https://currentops.com/unit/3".

(** The entry page lists one branch, the branch one subcategory, whose
    roster is nested: a corps, whose roster is nested too and lists one
    brigade; the brigade's page does not load. *)
Definition nested_web (url : string) : option Document :=
  if decide (url = TARGET_URL) then
    Some (heading_page [heading_link "Army" army_url])
  else if decide (url = army_url) then
    Some (heading_page [heading_link "FORSCOM" forscom_url])
  else if decide (url = forscom_url) then
    Some (marked_roster_page [link "I Corps" corps_url])
  else if decide (url = corps_url) then
    Some (marked_roster_page [link "2nd SBCT" brigade_url])
  else None.

(** The entry page lists one branch whose page does not load. *)
Definition broken_branch_web (url : string) : option Document :=
  if decide (url = TARGET_URL) then
    Some (heading_page [heading_link "Army" army_url])
  else None.

(** The branch loads, its only subcategory does not. *)
Definition broken_subcategory_web (url : string) : option Document :=
  if decide (url = TARGET_URL) then
    Some (heading_page [heading_link "Army" army_url])
  else if decide (url = army_url) then
    Some (heading_page [heading_link "FORSCOM" forscom_url])
  else None.

(** The entry page has a candidate whose heading is empty,
    [<div><a href=".../units/us/army"><h4></h4></a></div>]; its page loads
    and lists nothing. *)
Definition unnamed_branch_web (url : string) : option Document :=
  if decide (url = TARGET_URL) then
    Some (heading_page [heading_link "" army_url])
  else if decide (url = army_url) then Some blank_page
  else None.

(** ** Properties of trees *)

(** [Q] holds of an item and of every node below it. *)
Definition item_forall (Q : Item → Prop) (i : Item) : Prop :=
  Forall Q (item_nodes i).

(** The kind tag of a node asks for no depth beyond [hi]: it is
    [level_n_item] with [n ≤ hi], or [flat_item]. *)
Definition kind_within (hi : nat) (i : Item) : Prop :=
  match item_type i with
  | level_item n => n ≤ hi
  | flat_item => True
  | main_branch | subcategory => False
  end.

(** ** Properties of runs *)

(** What the visited set guarantees between the visited set [v] before a
    computation and the visited set [v'] and the events [es] after it:
    the URLs the nested pass adds on entry are pairwise distinct, none of
    them was visited before, and the visited set has grown by exactly the
    URLs added. *)
Definition entries_fresh (v v' : Visited) (es : list event) : Prop :=
  NoDup (adds by_nested es) ∧
  (∀ u, u ∈ adds by_nested es → u ∉ v) ∧
  v' = list_to_set (all_adds es) ∪ v.

(** The claim of C1 that no URL is fetched twice. *)
Definition fetched_at_most_once (es : list event) : Prop := NoDup (fetches es).

(** The claim of C10 that the URL of a subcategory is never in the visited
    set at the end of a run. *)
Definition visited_excludes_subcategories
    (r : list Component * Visited * list event) : Prop :=
  ∀ c s, c ∈ result r → s ∈ get_list (comp_subcategories c) →
         Some (subcat_url s) ∉ visited r.

(** The entry page lists one branch, the branch one subcategory, whose
    roster is flat and lists one unit; the unit's page does not load. *)
Definition flat_web (url : string) : option Document :=
  if decide (url = TARGET_URL) then
    Some (heading_page [heading_link "Army" army_url])
  else if decide (url = army_url) then
    Some (heading_page [heading_link "FORSCOM" forscom_url])
  else if decide (url = forscom_url) then
    Some (flat_roster_page [link "I Corps" corps_url])
  else None.

(** The branch lists a subcategory whose heading is empty; its page loads
    and lists nothing. *)
Definition unnamed_subcategory_web (url : string) : option Document :=
  if decide (url = TARGET_URL) then
    Some (heading_page [heading_link "Army" army_url])
  else if decide (url = army_url) then
    Some (heading_page [heading_link "" forscom_url])
  else if decide (url = forscom_url) then Some blank_page
  else None.

(** The claim of C9 that the result is empty only when the entry page
    does not load. *)
Definition empty_only_if_entry_fails (web : string → option Document)
    (r : list Component * Visited * list event) : Prop :=
  result r = [] → web TARGET_URL = None.

(** A candidate of the top-level pass that gives no node on a run that has
    visited nothing yet: it has no heading, or its page does not load. *)
Definition candidate_skipped (web : string → option Document)
    (urljoin : string → string → string) (a_tag : Element) : Prop :=
  find_h4 a_tag = None ∨
  (resolve urljoin BASE_URL <$> get_href a_tag) ≫= web = None.

(** The claim of C4 that a main-branch candidate whose page does not load
    still gives a node. *)
Definition failed_branch_yields_node (web : string → option Document)
    (urljoin : string → string → string) : Prop :=
  ∀ a_tag name href v,
    find_h4 a_tag = Some name → get_href a_tag = Some href →
    web (resolve urljoin BASE_URL href) = None →
    ∃ c, result (component_step web urljoin a_tag v) = Some c.

(** The same for a subcategory candidate. *)
Definition failed_subcategory_yields_node (web : string → option Document)
    (urljoin : string → string → string) : Prop :=
  ∀ sub_a_tag name href v,
    find_h4 sub_a_tag = Some name → get_href sub_a_tag = Some href →
    web (resolve urljoin BASE_URL href) = None →
    ∃ s, result (subcategory_step web urljoin sub_a_tag v) = Some s.

(** A child-collection field is absent or holds a non-empty list. *)
Definition absent_or_nonempty {A} (field : option (list A)) : Prop :=
  field ≠ Some [].

Definition item_fields_ok (i : Item) : Prop :=
  item_forall (λ n, absent_or_nonempty (item_subunits n)) i.

Definition subcat_fields_ok (s : Subcategory) : Prop :=
  absent_or_nonempty (subcat_units s) ∧
  Forall item_fields_ok (get_list (subcat_units s)).

Definition comp_fields_ok (c : Component) : Prop :=
  absent_or_nonempty (comp_subcategories c) ∧
  Forall subcat_fields_ok (get_list (comp_subcategories c)).

(** The claim of C5 that no key is ever bound to the empty string. *)
Definition metadata_never_empty (soup : Document) : Prop :=
  ∀ key value, extract_additional_info soup !! key = Some value → value ≠ "".

(** ** The nodes of a tree, level by level *)

(** The subcategories, the top-level units and all the item nodes of a
    tree, in document order. *)
Definition subcats_of (data : list Component) : list Subcategory :=
  flat_map (λ branch, get_list (comp_subcategories branch)) data.

Definition units_of (data : list Component) : list Item :=
  flat_map (λ subcat, get_list (subcat_units subcat)) (subcats_of data).

Definition items_of (data : list Component) : list Item :=
  flat_map item_nodes (units_of data).

(** How many elements of a list pass a test. *)
Definition count_where {A} (p : A → bool) (l : list A) : nat :=
  List.length (List.filter p l).

Definition is_flat_item (i : Item) : bool := bool_decide (item_type i = flat_item).

(** Field by field sum of two statistics. *)
Definition stats_plus (s1 s2 : Stats) : Stats :=
  mkStats (stats_main_branches s1 + stats_main_branches s2)
          (stats_subcategories s1 + stats_subcategories s2)
          (stats_units s1 + stats_units s2)
          (stats_subunits s1 + stats_subunits s2)
          (stats_flat_items s1 + stats_flat_items s2)
          (stats_with_location s1 + stats_with_location s2)
          (stats_with_full_name s1 + stats_with_full_name s2).

(** ** What the loops keep of a selection *)

(** The test of both loops, [if not name or href is None: continue], read
    as the elements that are kept. *)
Definition link_ok (element : Element) : bool :=
  match get_href element with
  | Some _ => negb (is_empty (get_text element))
  | None => false
  end.

(** The node the flat extraction builds for a kept element. *)
Definition flat_item_of (web : string → option Document)
    (urljoin : string → string → string) (base_url : string)
    (element : Element) : Item :=
  let href := resolve urljoin base_url (default "" (get_href element)) in
  mkItem (get_text element) href flat_item (info_of (web href)) None.

(** ** Events and visits *)

(** Every URL that the events add to the visited set is a string, and the
    events fetch it as well. *)
Definition adds_are_fetched (es : list event) : Prop :=
  ∀ u, u ∈ all_adds es → is_Some u ∧ u ∈ fetches es.

(** ** Pauses *)

(** The time the events sleep, in milliseconds. *)
Definition total_sleep (es : list event) : nat :=
  sum_list (omap (λ e, match e with EvSleep ms => Some ms | _ => None end) es).

(** A node of the nested pass found at a depth below [max_depth]: the
    nodes after which the loop pauses. *)
Definition paced (max_depth : nat) (i : Item) : bool :=
  match item_type i with
  | level_item n => n <=? max_depth
  | _ => false
  end.

(** ** The shape of the tree *)

(** A flat item: tagged [flat_item], without subunits. *)
Definition flat_leaf (i : Item) : Prop :=
  item_type i = flat_item ∧ item_subunits i = None.

(** A node built by the nested pass at [depth]: it is tagged
    [level_{depth+1}_item]; it has subunits only below [max_depth], and then
    they are either all flat items or all nodes built at [depth + 1]. *)
Inductive nested_at (max_depth : nat) : nat → Item → Prop :=
  | nested_at_leaf depth name url info :
      depth ≤ max_depth →
      nested_at max_depth depth
        (mkItem name url (level_item (depth + 1)) info None)
  | nested_at_node depth name url info subunits :
      depth < max_depth → subunits ≠ [] →
      Forall flat_leaf subunits ∨
        Forall (nested_at max_depth (S depth)) subunits →
      nested_at max_depth depth
        (mkItem name url (level_item (depth + 1)) info (Some subunits)).

Definition is_level (i : Item) : bool :=
  match item_type i with level_item _ => true | _ => false end.

(** No node of the nested pass below [n] has the URL of [n]. *)
Definition no_level_repeat (n : Item) : Prop :=
  Forall (λ m, is_level m = true → item_url m ≠ item_url n) (descendants n).

(** A node of the nested pass is not in the visited set [v], and no node of
    the nested pass below it repeats its URL. *)
Definition fresh_and_acyclic (v : Visited) (n : Item) : Prop :=
  (is_level n = true → Some (item_url n) ∉ v) ∧ no_level_repeat n.

(** The subunits of a node follow the classification of the node's own
    page: nodes of the nested pass when the page is nested, flat items
    when it is flat; a node whose page did not load has none. *)
Definition children_follow_classifier (web : string → option Document)
    (n : Item) : Prop :=
  match item_subunits n with
  | None => True
  | Some subunits =>
      match web (item_url n) with
      | Some soup =>
          if has_nested_structure soup
          then Forall (λ c, is_level c = true) subunits
          else Forall flat_leaf subunits
      | None => False
      end
  end.

(** The events fetch the URL. *)
Definition fetched (es : list event) (url : string) : Prop :=
  Some url ∈ fetches es.

(** * Proofs *)

(** ** Running computations *)

Lemma run_bind {A B} (m : M A) (f : A → M B) (v : Visited) :
  (m ≫= f) v =
  (result (f (result (m v)) (visited (m v))),
   visited (f (result (m v)) (visited (m v))),
   events (m v) ++ events (f (result (m v)) (visited (m v)))).
Proof.
  unfold mbind, M_bind, result, visited, events.
  destruct (m v) as [[a v1] e1]; simpl.
  destruct (f a v1) as [[b v2] e2]; reflexivity.
Qed.

Lemma run_ret {A} (x : A) (v : Visited) : (mret x : M A) v = (x, v, []).
Proof. reflexivity. Qed.

Lemma for_each_cons {A B} (body : A → M (option B)) x xs v :
  for_each body (x :: xs) v =
  (match result (body x v) with
   | Some y => y :: result (for_each body xs (visited (body x v)))
   | None => result (for_each body xs (visited (body x v)))
   end,
   visited (for_each body xs (visited (body x v))),
   events (body x v) ++ events (for_each body xs (visited (body x v)))).
Proof.
  simpl. rewrite run_bind. simpl. rewrite run_bind. simpl.
  unfold result, visited, events; simpl. by rewrite app_nil_r.
Qed.

(** The induction principle of the loop: [R] holds of the loop that does
    not run and is kept by one more turn in front. *)
Lemma for_each_ind {A B} (body : A → M (option B))
    (R : Visited → list B → Visited → list event → Prop) :
  (∀ v, R v [] v []) →
  (∀ x v rs v2 e2,
     R (visited (body x v)) rs v2 e2 →
     R v (match result (body x v) with Some y => y :: rs | None => rs end)
       v2 (events (body x v) ++ e2)) →
  ∀ l v, R v (result (for_each body l v)) (visited (for_each body l v))
           (events (for_each body l v)).
Proof.
  intros Hnil Hcons l. induction l as [|x xs IH]; intros v.
  - apply Hnil.
  - rewrite for_each_cons. apply Hcons, IH.
Qed.

(** Two loops whose bodies agree turn by turn agree. *)
Lemma for_each_ext {A B} (body1 body2 : A → M (option B)) l :
  (∀ x v, body1 x v = body2 x v) →
  ∀ v, for_each body1 l v = for_each body2 l v.
Proof.
  intros Hext. induction l as [|x xs IH]; intros v; [done|].
  rewrite !for_each_cons, Hext. by rewrite !IH.
Qed.

Lemma get_soup_None web v : result (get_soup web None v) = None.
Proof. reflexivity. Qed.

(** Structural induction on items, through the lists of subunits. *)
Lemma Item_nested_ind (P : Item → Prop) :
  (∀ name url type info, P (mkItem name url type info None)) →
  (∀ name url type info subunits,
     Forall P subunits → P (mkItem name url type info (Some subunits))) →
  ∀ i, P i.
Proof.
  intros Hleaf Hnode.
  fix IH 1. intros [name url type info [subunits|]]; [|apply Hleaf].
  apply Hnode. induction subunits as [|x xs IHxs]; constructor.
  - apply IH.
  - apply IHxs.
Qed.

(** ** The structure classifier *)

(** C8. [has_nested_structure] answers true exactly when the second-level
    selector matches at least one element of the page, and two pages that
    answer every selector alike are classified alike: the answer is a
    function of the page alone, not of the visited set or of an earlier
    answer. *)
Theorem C8_classifier_is_a_function_of_the_page :
  (∀ soup : Document,
     has_nested_structure soup = true ↔
     ∃ e, e ∈ select soup SELECTORS.second_level) ∧
  (∀ soup1 soup2 : Document,
     (∀ selector, select soup1 selector = select soup2 selector) →
     has_nested_structure soup1 = has_nested_structure soup2).
Proof.
  split.
  - intros soup. unfold has_nested_structure.
    destruct (select soup SELECTORS.second_level) as [|e es]; simpl.
    + split; [discriminate|]. intros [e He]. by apply elem_of_nil in He.
    + split; [|done]. intros _. exists e. by left.
  - intros soup1 soup2 Hsame. unfold has_nested_structure.
    by rewrite Hsame.
Qed.

Lemma C8_classifier_witness :
  has_nested_structure (marked_roster_page [link "I Corps" corps_url]) =
  has_nested_structure
    (λ selector, marked_roster_page [link "I Corps" corps_url] selector).
Proof.
  apply (proj2 C8_classifier_is_a_function_of_the_page).
  intros selector. reflexivity.
Defined.

(** ** The metadata extractor *)

(** C5, counterexample.  On a page whose first location-details match is an
    icon without text, the key is present and bound to the empty string. *)
Lemma C5_empty_text_is_kept :
  extract_additional_info icon_page !! "location_details" = Some "" ∧
  ¬ metadata_never_empty icon_page.
Proof.
  assert (H : extract_additional_info icon_page !! "location_details" = Some "")
    by (vm_compute; reflexivity).
  split; [exact H|]. intros Hnever. by apply (Hnever _ _ H).
Qed.

(** C5, as amended.  Each of the three keys is present exactly when its
    selector matches, bound to the stripped text of the first match,
    whatever that text is; no other key is present. *)
Theorem C5_metadata_of_first_match (soup : Document) :
  extract_additional_info soup !! "full_unit_name" =
    get_text <$> head (select soup SELECTORS.full_unit_name) ∧
  extract_additional_info soup !! "location_name" =
    get_text <$> head (select soup SELECTORS.location_name) ∧
  extract_additional_info soup !! "location_details" =
    get_text <$> head (select soup SELECTORS.location_details) ∧
  dom (extract_additional_info soup) ⊆
    ({["full_unit_name"; "location_name"; "location_details"]} : gset string).
Proof.
  unfold extract_additional_info.
  destruct (select soup SELECTORS.full_unit_name) as [|e1 ?];
  destruct (select soup SELECTORS.location_name) as [|e2 ?];
  destruct (select soup SELECTORS.location_details) as [|e3 ?]; simpl;
    repeat split;
    try (vm_compute; reflexivity);
    rewrite ?dom_insert_L, ?dom_empty_L; set_solver.
Qed.

(** ** The statistics fold *)

Lemma count_of_add4 a b : count_of (add4 a b) = count_of a + count_of b.
Proof. by destruct a as [[[? ?] ?] ?], b as [[[? ?] ?] ?]. Qed.

Lemma add4_assoc a b c : add4 a (add4 b c) = add4 (add4 a b) c.
Proof.
  destruct a as [[[? ?] ?] ?], b as [[[? ?] ?] ?], c as [[[? ?] ?] ?].
  simpl. f_equal; [f_equal; [f_equal|]|]; lia.
Qed.

Lemma count_item_Some name url type info subunits :
  count_item (mkItem name url type info (Some subunits)) =
  add4 (0, b2n (bool_decide (type = flat_item)), b2n (has_location info),
        b2n (has_key "full_unit_name" info))
       (add4 (List.length subunits, 0, 0, 0) (count_subunits subunits)).
Proof. reflexivity. Qed.

(** The equation of the source: one turn of the loop of [count_subunits]
    adds the item's flags, [len(subunits)] and the counts of the recursive
    call on [subunits]. *)
Lemma count_subunits_cons item items :
  count_subunits (item :: items) =
  add4 (add4 (add4 (0, b2n (bool_decide (item_type item = flat_item)),
                    b2n (has_location (item_info item)),
                    b2n (has_key "full_unit_name" (item_info item)))
                   (List.length (get_list (item_subunits item)), 0, 0, 0))
             (count_subunits (get_list (item_subunits item))))
       (count_subunits items).
Proof.
  destruct item as [name url type info [subunits|]].
  - change (count_subunits (mkItem name url type info (Some subunits) :: items))
      with (add4 (count_item (mkItem name url type info (Some subunits)))
              (count_subunits items)).
    by rewrite count_item_Some, add4_assoc.
  - simpl. f_equal. by rewrite !Nat.add_0_r.
Qed.

Lemma item_nodes_descendants i : item_nodes i = i :: descendants i.
Proof. by destruct i as [? ? ? ? [?|]]. Qed.

Lemma length_flat_map_item_nodes l :
  List.length (flat_map item_nodes l) =
  List.length l + List.length (flat_map descendants l).
Proof.
  induction l as [|x xs IH]; [done|].
  simpl flat_map. rewrite !length_app, IH, item_nodes_descendants.
  simpl. lia.
Qed.

Lemma count_item_descendants i :
  count_of (count_item i) = List.length (descendants i).
Proof.
  induction i as [name url type info|name url type info subunits IH]
    using Item_nested_ind; [done|].
  rewrite count_item_Some, !count_of_add4.
  change (descendants (mkItem name url type info (Some subunits)))
    with (flat_map item_nodes subunits).
  rewrite length_flat_map_item_nodes.
  change (count_of (0, _, _, _)) with 0.
  change (count_of (List.length subunits, 0, 0, 0)) with (List.length subunits).
  simpl. f_equal.
  induction IH as [|x xs Hx _ IHxs]; [done|].
  simpl count_subunits. simpl flat_map.
  by rewrite count_of_add4, length_app, Hx, IHxs.
Qed.

Lemma count_subunits_descendants items :
  count_of (count_subunits items) = List.length (flat_map descendants items).
Proof.
  induction items as [|x xs IH]; [done|].
  simpl. by rewrite count_of_add4, length_app, count_item_descendants, IH.
Qed.

Lemma fold_count_subcat subcats stats :
  stats_units (fold_left count_subcat subcats stats) =
    stats_units stats +
    sum_list (map (λ subcat, List.length (get_list (subcat_units subcat)))
                  subcats) ∧
  stats_subunits (fold_left count_subcat subcats stats) =
    stats_subunits stats +
    sum_list (map (λ subcat,
                List.length (flat_map descendants (get_list (subcat_units subcat))))
                  subcats).
Proof.
  revert stats. induction subcats as [|subcat subcats IH]; intros stats; simpl.
  - split; lia.
  - destruct (IH (count_subcat stats subcat)) as [-> ->].
    unfold count_subcat, stats_add_counts.
    rewrite <- count_subunits_descendants.
    destruct (count_subunits (get_list (subcat_units subcat)))
      as [[[c f] l] n]; simpl.
    unfold count_of; simpl. split; lia.
Qed.

Lemma fold_count_branch data stats :
  stats_units (fold_left count_branch data stats) =
    stats_units stats + immediate_units data ∧
  stats_subunits (fold_left count_branch data stats) =
    stats_subunits stats + nested_below_units data.
Proof.
  revert stats. induction data as [|branch data IH]; intros stats; simpl.
  - unfold immediate_units, nested_below_units; simpl. split; lia.
  - destruct (IH (count_branch stats branch)) as [-> ->].
    unfold count_branch.
    destruct (fold_count_subcat (get_list (comp_subcategories branch))
      (stats_add_flags (List.length (get_list (comp_subcategories branch)))
         (comp_info branch) stats)) as [-> ->].
    unfold immediate_units, nested_below_units; simpl. split; lia.
Qed.

(** C7. [units] is the sum, over all main branches' subcategories, of the
    lengths of their immediate unit lists; [subunits] is the number of nodes
    reachable through child edges from those unit lists, the top-level
    units themselves left out, at whatever depth; an item without the
    [subunits] key adds nothing to the count of descendants.  The fold is a
    function from the tree to the counts: the tree is only read. *)
Theorem C7_statistics_count_units_and_descendants (data : list Component) :
  stats_units (count_statistics data) = immediate_units data ∧
  stats_subunits (count_statistics data) = nested_below_units data ∧
  (∀ name url type info,
     count_of (count_subunits [mkItem name url type info None]) = 0) ∧
  (∀ items, count_of (count_subunits items) =
            List.length (flat_map descendants items)).
Proof.
  unfold count_statistics.
  destruct (fold_count_branch data (mkStats (List.length data) 0 0 0 0 0 0))
    as [-> ->].
  repeat split; try done.
  apply count_subunits_descendants.
Qed.

(** ** The crawl, turn by turn *)

Ltac run_monad :=
  unfold mbind, M_bind, mret, M_ret, visited_mem, visited_add, visited_clear,
    get_soup, sleep, result, visited, events; simpl.

Section Runs.
Variable web : string → option Document.
Variable urljoin : string → string → string.

(** A flat item is built from its link alone; its page only adds the
    metadata, and the visited set is neither read nor changed. *)
Lemma flat_step_run base_url element v :
  flat_step web urljoin base_url element v =
  match get_href element with
  | None => (None, v, [])
  | Some href =>
      if is_empty (get_text element) then (None, v, []) else
      let href := resolve urljoin base_url href in
      (Some (mkItem (get_text element) href flat_item (info_of (web href)) None),
       v, [EvFetch (Some href)])
  end.
Proof.
  unfold flat_step. destruct (get_href element) as [href|]; [|done].
  destruct (is_empty (get_text element)); [done|]. by run_monad.
Qed.

Lemma nested_step_run rec depth max_depth element v :
  nested_step web urljoin rec depth max_depth element v =
  match get_href element with
  | None => (None, v, [])
  | Some href =>
      if is_empty (get_text element) then (None, v, []) else
      let href := resolve urljoin BASE_URL href in
      if bool_decide (Some href ∈ v) then (None, v, []) else
      let sub := children_run web urljoin rec depth max_depth href v in
      (Some (mkItem (get_text element) href (level_item (depth + 1))
               (info_of (web href)) (set_if_nonempty (result sub))),
       visited sub,
       EvFetch (Some href) :: events sub ++
         (if depth <? max_depth then [EvSleep 300] else []))
  end.
Proof.
  unfold nested_step, children_run.
  destruct (get_href element) as [href|]; [|done].
  destruct (is_empty (get_text element)); [done|].
  run_monad.
  destruct (bool_decide (Some (resolve urljoin BASE_URL href) ∈ v)); [done|].
  simpl. destruct (depth <? max_depth); [|done].
  destruct (web (resolve urljoin BASE_URL href)) as [soup|]; [|done].
  destruct (has_nested_structure soup).
  - destruct (rec _ _ _ v) as [[sub_items v1] e1]; simpl.
    by rewrite !app_nil_r.
  - destruct (scrape_flat_structure _ _ _ _ v) as [[flat_items v1] e1]; simpl.
    by rewrite !app_nil_r.
Qed.

Lemma nested_body_run rec url depth max_depth v :
  nested_body web urljoin rec url depth max_depth v =
  if bool_decide (Some url ∈ v) || (max_depth <? depth) then ([], v, []) else
  match web url with
  | None =>
      ([], {[Some url]} ∪ v, [EvAdd by_nested (Some url); EvFetch (Some url)])
  | Some soup =>
      let r := for_each (nested_step web urljoin rec depth max_depth)
                 (select soup (level_selector depth)) ({[Some url]} ∪ v) in
      (result r, visited r,
       EvAdd by_nested (Some url) :: EvFetch (Some url) :: events r)
  end.
Proof.
  unfold nested_body. run_monad.
  destruct (bool_decide (Some url ∈ v) || (max_depth <? depth)); [done|].
  simpl. destruct (web url) as [soup|]; [|done].
  by destruct (for_each _ _ _) as [[items v1] e1].
Qed.

Lemma children_run_ext rec1 rec2 depth max_depth href v :
  (∀ url v, rec1 url (depth + 1) max_depth v = rec2 url (depth + 1) max_depth v) →
  children_run web urljoin rec1 depth max_depth href v =
  children_run web urljoin rec2 depth max_depth href v.
Proof.
  intros Hext. unfold children_run.
  destruct (depth <? max_depth); [|done].
  destruct (web href) as [soup|]; [|done].
  by destruct (has_nested_structure soup).
Qed.

Lemma nested_body_ext rec1 rec2 url depth max_depth v :
  (∀ url v, rec1 url (depth + 1) max_depth v = rec2 url (depth + 1) max_depth v) →
  nested_body web urljoin rec1 url depth max_depth v =
  nested_body web urljoin rec2 url depth max_depth v.
Proof.
  intros Hext. rewrite !nested_body_run.
  destruct (bool_decide (Some url ∈ v) || (max_depth <? depth)); [done|].
  destruct (web url) as [soup|]; [|done].
  cbv zeta. rewrite (for_each_ext _ (nested_step web urljoin rec2 depth max_depth));
    [done|].
  intros x v'. rewrite !nested_step_run.
  destruct (get_href x) as [href|]; [|done]. cbv zeta.
  by rewrite (children_run_ext rec1 rec2).
Qed.

(** The equation of the source: [scrape_nested_structure] is its body,
    with itself for the recursive call. *)
Lemma scrape_nested_structure_eq url depth max_depth v :
  scrape_nested_structure web urljoin url depth max_depth v =
  nested_body web urljoin (scrape_nested_structure web urljoin)
    url depth max_depth v.
Proof.
  unfold scrape_nested_structure at 1.
  destruct (decide (max_depth < depth)) as [Hgt|Hle].
  - replace (S max_depth - depth) with 0 by lia.
    rewrite nested_body_run.
    apply Nat.ltb_lt in Hgt. rewrite Hgt, orb_true_r. done.
  - replace (S max_depth - depth) with (S (max_depth - depth)) by lia.
    simpl. apply nested_body_ext. intros href v'.
    unfold scrape_nested_structure.
    by replace (S max_depth - (depth + 1)) with (max_depth - depth) by lia.
Qed.

Lemma subcategory_step_run sub_a_tag v :
  subcategory_step web urljoin sub_a_tag v =
  match find_h4 sub_a_tag with
  | None => (None, v, [])
  | Some sub_name =>
      let sub_href := resolve urljoin BASE_URL <$> get_href sub_a_tag in
      match sub_href ≫= web, sub_href with
      | Some sub_soup, Some sub_href =>
          let sub := units_run web urljoin sub_soup sub_href v in
          (Some (mkSubcategory sub_name sub_href subcategory
                   (extract_additional_info sub_soup)
                   (set_if_nonempty (result sub))),
           visited sub,
           EvFetch (Some sub_href) :: events sub ++ [EvSleep 500])
      | _, _ => (None, v, [EvFetch sub_href])
      end
  end.
Proof.
  unfold subcategory_step, units_run.
  destruct (find_h4 sub_a_tag) as [sub_name|]; [|done].
  run_monad.
  destruct (get_href sub_a_tag) as [href|]; simpl; [|done].
  destruct (web (resolve urljoin BASE_URL href)) as [sub_soup|]; [|done].
  destruct (has_nested_structure sub_soup).
  - destruct (scrape_nested_structure _ _ _ _ _ v) as [[items v1] e1]; simpl.
    by rewrite !app_nil_r.
  - destruct (scrape_flat_structure _ _ _ _ v) as [[items v1] e1]; simpl.
    by rewrite !app_nil_r.
Qed.

Lemma component_step_run a_tag v :
  component_step web urljoin a_tag v =
  match find_h4 a_tag with
  | None => (None, v, [])
  | Some name =>
      let href := resolve urljoin BASE_URL <$> get_href a_tag in
      if bool_decide (href ∈ v) then (None, v, []) else
      match href ≫= web, href with
      | Some soup_branch, Some href =>
          let subs := for_each (subcategory_step web urljoin)
                        (select soup_branch MAIN_SELECTOR) v in
          (Some (mkComponent name href main_branch
                   (extract_additional_info soup_branch)
                   (set_if_nonempty (result subs))),
           {[Some href]} ∪ visited subs,
           EvFetch (Some href) :: events subs ++
             [EvSleep 1000; EvAdd by_main (Some href)])
      | _, _ => (None, v, [EvFetch href])
      end
  end.
Proof.
  unfold component_step.
  destruct (find_h4 a_tag) as [name|]; [|done].
  run_monad.
  destruct (bool_decide (resolve urljoin BASE_URL <$> get_href a_tag ∈ v));
    [done|].
  destruct (get_href a_tag) as [href|]; simpl; [|done].
  destruct (web (resolve urljoin BASE_URL href)) as [soup_branch|]; [|done].
  by destruct (for_each _ _ v) as [[subs v1] e1].
Qed.

Lemma scrape_main_components_run v :
  scrape_main_components web urljoin v =
  match web TARGET_URL with
  | None => ([], ∅, [EvFetch (Some TARGET_URL)])
  | Some soup =>
      let r := for_each (component_step web urljoin)
                 (select soup MAIN_SELECTOR) ∅ in
      (result r, visited r, EvFetch (Some TARGET_URL) :: events r)
  end.
Proof.
  unfold scrape_main_components. run_monad.
  destruct (web TARGET_URL) as [soup|]; [|done].
  by destruct (for_each _ _ _) as [[comps v1] e1].
Qed.

End Runs.

(** ** Properties of every node the crawl builds *)

Lemma Forall_flat_map_item_nodes (Q : Item → Prop) l :
  Forall Q (flat_map item_nodes l) ↔ Forall (item_forall Q) l.
Proof.
  induction l as [|x xs IH]; simpl.
  - split; constructor.
  - rewrite Forall_app, Forall_cons, IH. done.
Qed.

Lemma item_forall_built (Q : Item → Prop) name url type info l :
  item_forall Q (mkItem name url type info (set_if_nonempty l)) ↔
  Q (mkItem name url type info (set_if_nonempty l)) ∧ Forall (item_forall Q) l.
Proof.
  unfold item_forall. destruct l as [|x xs].
  - simpl. rewrite Forall_singleton. split; [|tauto].
    intros HQ. split; [done|constructor].
  - change (item_nodes (mkItem name url type info (set_if_nonempty (x :: xs))))
      with (mkItem name url type info (Some (x :: xs))
              :: flat_map item_nodes (x :: xs)).
    by rewrite Forall_cons, Forall_flat_map_item_nodes.
Qed.

Section Built.
Variable web : string → option Document.
Variable urljoin : string → string → string.

(** A property of nodes that holds of whatever the nested pass builds up
    to depth [max_depth] and of whatever the flat extraction builds. *)
Variable Q : Item → Prop.
Variable max_depth : nat.
Hypothesis Q_nested : ∀ name url depth info l,
  is_empty name = false → depth ≤ max_depth →
  Q (mkItem name url (level_item (depth + 1)) info (set_if_nonempty l)).
Hypothesis Q_flat : ∀ name url info,
  is_empty name = false → Q (mkItem name url flat_item info None).

Lemma scrape_flat_structure_forall soup base_url v :
  Forall (item_forall Q) (result (scrape_flat_structure web urljoin soup base_url v)).
Proof.
  unfold scrape_flat_structure.
  apply (for_each_ind _ (λ _ rs _ _, Forall (item_forall Q) rs)); [constructor|].
  intros x v0 rs _ _ Hrs. rewrite flat_step_run.
  destruct (get_href x) as [href|]; [|done].
  destruct (is_empty (get_text x)) eqn:Hname; [done|].
  simpl. constructor; [|done].
  unfold item_forall. simpl. rewrite Forall_singleton. by apply Q_flat.
Qed.

Lemma nested_rec_forall k :
  ∀ url depth v,
    Forall (item_forall Q) (result (nested_rec web urljoin k url depth max_depth v)).
Proof.
  induction k as [|k IH]; intros url depth v; [constructor|].
  simpl. rewrite nested_body_run.
  destruct (bool_decide (Some url ∈ v)); [constructor|]. simpl.
  destruct (max_depth <? depth) eqn:Hdepth; [constructor|].
  apply Nat.ltb_ge in Hdepth.
  destruct (web url) as [soup|]; [|constructor]. cbv zeta. simpl result.
  apply (for_each_ind _ (λ _ rs _ _, Forall (item_forall Q) rs)); [constructor|].
  intros x v0 rs _ _ Hrs. rewrite nested_step_run.
  destruct (get_href x) as [href|]; [|done].
  destruct (is_empty (get_text x)) eqn:Hname; [done|]. cbv zeta.
  destruct (bool_decide (Some (resolve urljoin BASE_URL href) ∈ v0)); [done|].
  simpl. constructor; [|done].
  apply item_forall_built. split; [by apply Q_nested|].
  unfold children_run.
  destruct (depth <? max_depth); [|constructor].
  destruct (web (resolve urljoin BASE_URL href)) as [item_soup|]; [|constructor].
  destruct (has_nested_structure item_soup);
    [apply IH|apply scrape_flat_structure_forall].
Qed.

Lemma scrape_nested_structure_forall url depth v :
  Forall (item_forall Q)
    (result (scrape_nested_structure web urljoin url depth max_depth v)).
Proof. unfold scrape_nested_structure. apply nested_rec_forall. Qed.

End Built.

(** ** The depth bound *)

Section Depth.
Variable web : string → option Document.
Variable urljoin : string → string → string.

Lemma scrape_nested_structure_beyond url depth max_depth v :
  max_depth < depth →
  scrape_nested_structure web urljoin url depth max_depth v = ([], v, []).
Proof.
  intros Hgt. rewrite scrape_nested_structure_eq, nested_body_run.
  apply Nat.ltb_lt in Hgt. by rewrite Hgt, orb_true_r.
Qed.

Lemma scrape_nested_structure_level url depth max_depth v :
  Forall (λ i, item_type i = level_item (depth + 1))
    (result (scrape_nested_structure web urljoin url depth max_depth v)).
Proof.
  rewrite scrape_nested_structure_eq, nested_body_run.
  destruct (_ || _); [constructor|].
  destruct (web url) as [soup|]; [|constructor]. cbv zeta. simpl result.
  apply (for_each_ind _
           (λ _ rs _ _, Forall (λ i, item_type i = level_item (depth + 1)) rs));
    [constructor|].
  intros x v0 rs _ _ Hrs. rewrite nested_step_run.
  destruct (get_href x) as [href|]; [|done].
  destruct (is_empty (get_text x)); [done|]. cbv zeta.
  destruct (bool_decide _); [done|]. simpl. by constructor.
Qed.

(** At [max_depth] a turn of the loop fetches the child's page and
    nothing else, and leaves the child without subunits. *)
Lemma scrape_nested_structure_last url max_depth v :
  let r := scrape_nested_structure web urljoin url max_depth max_depth v in
  Forall (λ i, item_subunits i = None) (result r) ∧
  fetches (events r) =
    if bool_decide (Some url ∈ v) then []
    else Some url :: map (λ i, Some (item_url i)) (result r).
Proof.
  cbv zeta. rewrite scrape_nested_structure_eq, nested_body_run.
  rewrite Nat.ltb_irrefl, orb_false_r.
  destruct (bool_decide (Some url ∈ v)); [by split|].
  destruct (web url) as [soup|]; [|by split]. cbv zeta.
  simpl result. simpl events.
  change (fetches (?a :: ?b :: ?es)) with (Some url :: fetches es).
  cut (Forall (λ i, item_subunits i = None)
         (result (for_each (nested_step web urljoin
            (scrape_nested_structure web urljoin) max_depth max_depth)
            (select soup (level_selector max_depth)) ({[Some url]} ∪ v))) ∧
       fetches (events (for_each (nested_step web urljoin
            (scrape_nested_structure web urljoin) max_depth max_depth)
            (select soup (level_selector max_depth)) ({[Some url]} ∪ v))) =
       map (λ i, Some (item_url i))
         (result (for_each (nested_step web urljoin
            (scrape_nested_structure web urljoin) max_depth max_depth)
            (select soup (level_selector max_depth)) ({[Some url]} ∪ v)))).
  { intros [? ->]. by split. }
  apply (for_each_ind _
    (λ _ rs _ es, Forall (λ i, item_subunits i = None) rs ∧
                  fetches es = map (λ i, Some (item_url i)) rs)); [by split|].
  intros x v0 rs _ es [Hrs Hes]. rewrite nested_step_run.
  destruct (get_href x) as [href|]; [|done].
  destruct (is_empty (get_text x)); [done|]. cbv zeta.
  destruct (bool_decide _); [done|].
  unfold children_run. rewrite Nat.ltb_irrefl. simpl.
  split; [by constructor|]. unfold fetches in *. simpl. by rewrite Hes.
Qed.

End Depth.

(** C2. With [max_depth = M]: an invocation at a depth beyond [M] returns
    the empty list, fetches nothing and leaves the visited set alone; the
    children built at depth [d] are tagged [level_{d+1}_item] and no node of
    their subtrees has a tag beyond [level_{M+1}_item]; at depth [M] the
    children are leaves, and the only pages fetched are the page of the
    invocation and the children's own pages, so that no link found on a
    child's page is followed. *)
Theorem C2_depth_bound web urljoin url depth max_depth v :
  (max_depth < depth →
   scrape_nested_structure web urljoin url depth max_depth v = ([], v, [])) ∧
  Forall (λ i, item_type i = level_item (depth + 1) ∧
               item_forall (kind_within (max_depth + 1)) i)
    (result (scrape_nested_structure web urljoin url depth max_depth v)) ∧
  (depth = max_depth →
   let r := scrape_nested_structure web urljoin url depth max_depth v in
   Forall (λ i, item_subunits i = None) (result r) ∧
   fetches (events r) =
     if bool_decide (Some url ∈ v) then []
     else Some url :: map (λ i, Some (item_url i)) (result r)).
Proof.
  split; [apply scrape_nested_structure_beyond|]. split.
  - apply Forall_and. split; [apply scrape_nested_structure_level|].
    apply scrape_nested_structure_forall.
    + intros name href d info l _ Hd. unfold kind_within. simpl. lia.
    + intros name href info _. by unfold kind_within.
  - intros ->. apply scrape_nested_structure_last.
Qed.

Lemma C2_depth_bound_witness :
  scrape_nested_structure nested_web urljoin_root forscom_url 4 3 ∅ = ([], ∅, []) ∧
  fetches (events (scrape_nested_structure nested_web urljoin_root forscom_url 0 0 ∅))
  = [Some forscom_url; Some corps_url].
Proof.
  split.
  - apply (proj1 (C2_depth_bound nested_web urljoin_root forscom_url 4 3 ∅)). lia.
  - destruct (C2_depth_bound nested_web urljoin_root forscom_url 0 0 ∅)
      as (_ & _ & Hlast).
    destruct (Hlast eq_refl) as [_ Hfetches].
    rewrite Hfetches. vm_compute. reflexivity.
Defined.

(** ** The visited set *)

Lemma fetches_app es1 es2 : fetches (es1 ++ es2) = fetches es1 ++ fetches es2.
Proof. apply omap_app. Qed.

Lemma adds_app who es1 es2 : adds who (es1 ++ es2) = adds who es1 ++ adds who es2.
Proof. apply omap_app. Qed.

Lemma all_adds_app es1 es2 : all_adds (es1 ++ es2) = all_adds es1 ++ all_adds es2.
Proof. apply omap_app. Qed.

Lemma adds_all_adds who es u : u ∈ adds who es → u ∈ all_adds es.
Proof.
  induction es as [|[f|w a|ms] es IH]; simpl; [done|auto| |auto].
  unfold adds, all_adds in *. simpl. destruct (decide (w = who)); simpl.
  - rewrite !elem_of_cons. intros [->|?]; auto.
  - rewrite elem_of_cons. auto.
Qed.

Lemma all_adds_split es u :
  u ∈ all_adds es ↔ u ∈ adds by_main es ∨ u ∈ adds by_nested es.
Proof.
  split; [|intros [?|?]; by eapply adds_all_adds].
  induction es as [|[f|w a|ms] es IH]; simpl; [by intros ?%elem_of_nil|auto| |auto].
  unfold adds, all_adds in *. simpl. rewrite elem_of_cons.
  destruct w; simpl; rewrite elem_of_cons; intros [->|?]; tauto.
Qed.

Lemma entries_fresh_nil v : entries_fresh v v [].
Proof.
  repeat split; simpl; [constructor|by intros u ?%elem_of_nil|set_solver].
Qed.

Lemma entries_fresh_app v v1 v2 es1 es2 :
  entries_fresh v v1 es1 → entries_fresh v1 v2 es2 →
  entries_fresh v v2 (es1 ++ es2).
Proof.
  intros (Hnd1 & Hnew1 & ->) (Hnd2 & Hnew2 & ->).
  unfold entries_fresh. rewrite adds_app, all_adds_app. repeat split.
  - apply NoDup_app. repeat split; [done| |done].
    intros u Hu1 Hu2. apply (Hnew2 u Hu2).
    apply elem_of_union_l, elem_of_list_to_set. by eapply adds_all_adds.
  - intros u [Hu|Hu]%elem_of_app; [by apply Hnew1|].
    intros Hv. apply (Hnew2 u Hu). by apply elem_of_union_r.
  - rewrite list_to_set_app_L. set_solver.
Qed.

(** Events that add nothing. *)
Lemma entries_fresh_silent v es : all_adds es = [] → entries_fresh v v es.
Proof.
  intros Hnone.
  assert (Hnested : adds by_nested es = []).
  { destruct (adds by_nested es) as [|u us] eqn:Hadds; [done|].
    assert (Hu : u ∈ all_adds es).
    { apply (adds_all_adds by_nested). rewrite Hadds. by left. }
    rewrite Hnone in Hu. by apply elem_of_nil in Hu. }
  unfold entries_fresh. rewrite Hnested, Hnone. simpl.
  repeat split; [constructor|by intros u ?%elem_of_nil|set_solver].
Qed.

Section Visits.
Variable web : string → option Document.
Variable urljoin : string → string → string.

(** The flat extraction neither reads nor changes the visited set. *)
Lemma scrape_flat_structure_frame soup base_url v :
  scrape_flat_structure web urljoin soup base_url v =
  (result (scrape_flat_structure web urljoin soup base_url ∅), v,
   events (scrape_flat_structure web urljoin soup base_url ∅)) ∧
  all_adds (events (scrape_flat_structure web urljoin soup base_url ∅)) = [].
Proof.
  unfold scrape_flat_structure. revert v.
  induction (select soup SELECTORS.flat_list) as [|x xs IH]; intros v;
    [done|].
  rewrite !for_each_cons, !flat_step_run.
  destruct (IH v) as [Heq Hadds].
  destruct (get_href x) as [href|]; [|simpl; by rewrite Heq].
  destruct (is_empty (get_text x)); [simpl; by rewrite Heq|].
  cbv zeta. simpl. by rewrite Heq.
Qed.

Lemma scrape_flat_structure_entries soup base_url v :
  entries_fresh v (visited (scrape_flat_structure web urljoin soup base_url v))
    (events (scrape_flat_structure web urljoin soup base_url v)).
Proof.
  destruct (scrape_flat_structure_frame soup base_url v) as [Heq Hadds].
  rewrite Heq. simpl. by apply entries_fresh_silent.
Qed.

Lemma for_each_entries {A B} (body : A → M (option B)) :
  (∀ x v, entries_fresh v (visited (body x v)) (events (body x v))) →
  ∀ l v, entries_fresh v (visited (for_each body l v))
           (events (for_each body l v)).
Proof.
  intros Hbody.
  apply (for_each_ind body (λ v _ v' es, entries_fresh v v' es)).
  - apply entries_fresh_nil.
  - intros x v rs v2 e2 Hrest. by eapply entries_fresh_app.
Qed.

Lemma nested_rec_entries k :
  ∀ url depth max_depth v,
    entries_fresh v (visited (nested_rec web urljoin k url depth max_depth v))
      (events (nested_rec web urljoin k url depth max_depth v)).
Proof.
  induction k as [|k IH]; intros url depth max_depth v;
    [apply entries_fresh_nil|].
  simpl. rewrite nested_body_run.
  destruct (bool_decide (Some url ∈ v)) eqn:Hseen; [apply entries_fresh_nil|].
  apply bool_decide_eq_false in Hseen. simpl.
  destruct (max_depth <? depth); [apply entries_fresh_nil|].
  assert (Hentry : entries_fresh v ({[Some url]} ∪ v)
                     [EvAdd by_nested (Some url); EvFetch (Some url)]).
  { repeat split; simpl.
    - apply NoDup_singleton.
    - by intros u ->%list_elem_of_singleton.
    - set_solver. }
  destruct (web url) as [soup|]; [|done]. cbv zeta.
  apply (entries_fresh_app _ _ _ [_; _] _ Hentry).
  apply for_each_entries. intros x v0. rewrite nested_step_run.
  destruct (get_href x) as [href|]; [|apply entries_fresh_nil].
  destruct (is_empty (get_text x)); [apply entries_fresh_nil|]. cbv zeta.
  destruct (bool_decide _); [apply entries_fresh_nil|].
  apply (entries_fresh_app _ v0 _ [_]); [by apply entries_fresh_silent|].
  eapply entries_fresh_app;
    [|apply entries_fresh_silent; by destruct (depth <? max_depth)].
  unfold children_run.
  destruct (depth <? max_depth); [|apply entries_fresh_nil].
  destruct (web (resolve urljoin BASE_URL href)) as [item_soup|];
    [|apply entries_fresh_nil].
  destruct (has_nested_structure item_soup);
    [apply IH|apply scrape_flat_structure_entries].
Qed.

Lemma scrape_nested_structure_entries url depth max_depth v :
  entries_fresh v
    (visited (scrape_nested_structure web urljoin url depth max_depth v))
    (events (scrape_nested_structure web urljoin url depth max_depth v)).
Proof. unfold scrape_nested_structure. apply nested_rec_entries. Qed.

Lemma subcategory_step_entries sub_a_tag v :
  entries_fresh v (visited (subcategory_step web urljoin sub_a_tag v))
    (events (subcategory_step web urljoin sub_a_tag v)).
Proof.
  rewrite subcategory_step_run.
  destruct (find_h4 sub_a_tag) as [sub_name|]; [|apply entries_fresh_nil].
  cbv zeta.
  destruct (_ ≫= web) as [sub_soup|]; [|by apply entries_fresh_silent].
  destruct (resolve urljoin BASE_URL <$> get_href sub_a_tag) as [sub_href|];
    [|by apply entries_fresh_silent].
  apply (entries_fresh_app _ v _ [_]); [by apply entries_fresh_silent|].
  eapply entries_fresh_app; [|by apply entries_fresh_silent].
  unfold units_run. destruct (has_nested_structure sub_soup);
    [apply scrape_nested_structure_entries|apply scrape_flat_structure_entries].
Qed.

Lemma component_step_entries a_tag v :
  entries_fresh v (visited (component_step web urljoin a_tag v))
    (events (component_step web urljoin a_tag v)).
Proof.
  rewrite component_step_run.
  destruct (find_h4 a_tag) as [name|]; [|apply entries_fresh_nil]. cbv zeta.
  destruct (bool_decide _); [apply entries_fresh_nil|].
  destruct (_ ≫= web) as [soup_branch|]; [|by apply entries_fresh_silent].
  destruct (resolve urljoin BASE_URL <$> get_href a_tag) as [href|];
    [|by apply entries_fresh_silent].
  apply (entries_fresh_app _ v _ [_]); [by apply entries_fresh_silent|].
  eapply entries_fresh_app;
    [apply for_each_entries, subcategory_step_entries|].
  repeat split; simpl; [constructor|by intros u ?%elem_of_nil|set_solver].
Qed.

(** The run starts from the empty visited set, whatever it held. *)
Lemma scrape_main_components_entries v :
  entries_fresh ∅ (visited (scrape_main_components web urljoin v))
    (events (scrape_main_components web urljoin v)).
Proof.
  rewrite scrape_main_components_run.
  destruct (web TARGET_URL) as [soup|]; [|by apply entries_fresh_silent].
  apply (entries_fresh_app _ ∅ _ [_]); [by apply entries_fresh_silent|].
  apply for_each_entries, component_step_entries.
Qed.

End Visits.

(** C1, counterexample.  The corps is a child of the first level whose page
    is nested: the loop fetches its page for the metadata and the
    classification, and the recursive call, which finds it unvisited,
    fetches it again. *)
Lemma C1_recursed_child_is_fetched_twice :
  fetches (events (scrape_nested_structure nested_web urljoin_root
                     forscom_url 0 3 ∅)) =
    [Some forscom_url; Some corps_url; Some corps_url; Some brigade_url] ∧
  ¬ fetched_at_most_once
      (events (scrape_nested_structure nested_web urljoin_root forscom_url 0 3 ∅)).
Proof.
  assert (Hfetches :
    fetches (events (scrape_nested_structure nested_web urljoin_root
                       forscom_url 0 3 ∅)) =
    [Some forscom_url; Some corps_url; Some corps_url; Some brigade_url])
    by (vm_compute; reflexivity).
  split; [exact Hfetches|].
  unfold fetched_at_most_once. rewrite Hfetches. intros Hnd.
  apply NoDup_cons in Hnd as [_ Hnd]. apply NoDup_cons in Hnd as [Hin _].
  apply Hin. by left.
Qed.

(** C1, as amended.  The visited set keeps the nested pass from entering a
    URL twice, not from fetching it twice.  In every invocation, and in the
    whole run, the URLs the nested pass adds on entry are pairwise distinct
    and were not visited before; an invocation on a visited URL returns the
    empty list without fetching; a child whose URL is visited is skipped
    without being fetched; and the flat extraction gives the same items and
    the same fetches whatever the visited set holds. *)
Theorem C1_nested_pass_enters_each_url_once
    web urljoin url depth max_depth v :
  let r := scrape_nested_structure web urljoin url depth max_depth v in
  entries_fresh v (visited r) (events r) ∧
  (Some url ∈ v → r = ([], v, [])) ∧
  (∀ rec element href,
     get_href element = Some href →
     Some (resolve urljoin BASE_URL href) ∈ v →
     nested_step web urljoin rec depth max_depth element v = (None, v, [])) ∧
  NoDup (adds by_nested (events (scrape_main_components web urljoin v))) ∧
  (∀ soup base_url,
     scrape_flat_structure web urljoin soup base_url v =
     (result (scrape_flat_structure web urljoin soup base_url ∅), v,
      events (scrape_flat_structure web urljoin soup base_url ∅))).
Proof.
  cbv zeta. split; [apply scrape_nested_structure_entries|].
  split; [|split; [|split]].
  - intros Hseen. rewrite scrape_nested_structure_eq, nested_body_run.
    by rewrite (bool_decide_eq_true_2 _ Hseen).
  - intros rec element href Hhref Hseen. rewrite nested_step_run, Hhref.
    destruct (is_empty (get_text element)); [done|]. cbv zeta.
    by rewrite (bool_decide_eq_true_2 _ Hseen).
  - apply (scrape_main_components_entries web urljoin v).
  - intros soup base_url. apply scrape_flat_structure_frame.
Qed.

Lemma C1_nested_pass_enters_each_url_once_witness :
  scrape_nested_structure nested_web urljoin_root forscom_url 0 3
    {[Some forscom_url]} = ([], {[Some forscom_url]}, []).
Proof.
  apply (C1_nested_pass_enters_each_url_once nested_web urljoin_root
           forscom_url 0 3 {[Some forscom_url]}).
  vm_compute. reflexivity.
Defined.

(** ** Who adds to the visited set *)

Lemma for_each_adds_nil {A B} who (body : A → M (option B)) :
  (∀ x v, adds who (events (body x v)) = []) →
  ∀ l v, adds who (events (for_each body l v)) = [].
Proof.
  intros Hbody.
  apply (for_each_ind body (λ _ _ _ es, adds who es = [])); [done|].
  intros x v rs v2 e2 Hrest. by rewrite adds_app, Hbody, Hrest.
Qed.

Section Adders.
Variable web : string → option Document.
Variable urljoin : string → string → string.

Lemma scrape_flat_structure_adds who soup base_url v :
  adds who (events (scrape_flat_structure web urljoin soup base_url v)) = [].
Proof.
  apply for_each_adds_nil. intros x v0. rewrite flat_step_run.
  destruct (get_href x) as [href|]; [|done].
  by destruct (is_empty (get_text x)).
Qed.

Lemma nested_rec_adds_main k :
  ∀ url depth max_depth v,
    adds by_main (events (nested_rec web urljoin k url depth max_depth v)) = [].
Proof.
  induction k as [|k IH]; intros url depth max_depth v; [done|].
  simpl. rewrite nested_body_run.
  destruct (_ || _); [done|].
  destruct (web url) as [soup|]; [|done]. cbv zeta. simpl events.
  change (adds by_main (?a :: ?b :: ?es)) with (adds by_main es).
  apply for_each_adds_nil. intros x v0. rewrite nested_step_run.
  destruct (get_href x) as [href|]; [|done].
  destruct (is_empty (get_text x)); [done|]. cbv zeta.
  destruct (bool_decide _); [done|]. simpl events.
  change (adds by_main (?a :: ?es)) with (adds by_main es).
  rewrite adds_app.
  replace (adds by_main (if depth <? max_depth then [EvSleep 300] else []))
    with (@nil (option string)) by (by destruct (depth <? max_depth)).
  rewrite app_nil_r. unfold children_run.
  destruct (depth <? max_depth); [|done].
  destruct (web (resolve urljoin BASE_URL href)) as [item_soup|]; [|done].
  destruct (has_nested_structure item_soup);
    [apply IH|apply scrape_flat_structure_adds].
Qed.

Lemma subcategory_step_adds_main sub_a_tag v :
  adds by_main (events (subcategory_step web urljoin sub_a_tag v)) = [].
Proof.
  rewrite subcategory_step_run.
  destruct (find_h4 sub_a_tag) as [sub_name|]; [|done]. cbv zeta.
  destruct (_ ≫= web) as [sub_soup|]; [|done].
  destruct (resolve urljoin BASE_URL <$> get_href sub_a_tag) as [sub_href|];
    [|done].
  simpl events. change (adds by_main (?a :: ?es)) with (adds by_main es).
  rewrite adds_app, app_nil_r. unfold units_run.
  destruct (has_nested_structure sub_soup);
    [apply nested_rec_adds_main|apply scrape_flat_structure_adds].
Qed.

(** A subcategory whose page is flat leaves the visited set as it was. *)
Lemma subcategory_step_flat sub_a_tag v :
  match result (subcategory_step web urljoin sub_a_tag v) with
  | Some s =>
      match web (subcat_url s) with
      | Some sub_soup =>
          has_nested_structure sub_soup = false →
          visited (subcategory_step web urljoin sub_a_tag v) = v
      | None => False
      end
  | None => visited (subcategory_step web urljoin sub_a_tag v) = v
  end.
Proof.
  rewrite subcategory_step_run.
  destruct (find_h4 sub_a_tag) as [sub_name|]; [|done]. cbv zeta.
  destruct (get_href sub_a_tag) as [href|]; simpl; [|done].
  destruct (web (resolve urljoin BASE_URL href)) as [sub_soup|] eqn:Hweb;
    [|done].
  simpl. rewrite Hweb. intros Hflat. unfold units_run. rewrite Hflat.
  by destruct (scrape_flat_structure_frame web urljoin sub_soup
                 (resolve urljoin BASE_URL href) v) as [-> _].
Qed.

(** A branch is added once, by the last event of its turn. *)
Lemma component_step_adds_main a_tag v :
  match result (component_step web urljoin a_tag v) with
  | Some c =>
      ∃ es, events (component_step web urljoin a_tag v) =
              es ++ [EvAdd by_main (Some (comp_url c))] ∧
            adds by_main es = []
  | None => adds by_main (events (component_step web urljoin a_tag v)) = []
  end.
Proof.
  rewrite component_step_run.
  destruct (find_h4 a_tag) as [name|]; [|done]. cbv zeta.
  destruct (bool_decide _); [done|].
  destruct (_ ≫= web) as [soup_branch|]; [|done].
  destruct (resolve urljoin BASE_URL <$> get_href a_tag) as [href|]; [|done].
  simpl.
  exists (EvFetch (Some href)
            :: events (for_each (subcategory_step web urljoin)
                         (select soup_branch MAIN_SELECTOR) v)
            ++ [EvSleep 1000]).
  split.
  - simpl. f_equal. by rewrite <- app_assoc.
  - change (adds by_main (?a :: ?es)) with (adds by_main es).
    rewrite adds_app, app_nil_r.
    apply for_each_adds_nil, subcategory_step_adds_main.
Qed.

Lemma for_each_component_adds_main l :
  ∀ v, adds by_main (events (for_each (component_step web urljoin) l v)) =
       map (λ c, Some (comp_url c))
         (result (for_each (component_step web urljoin) l v)).
Proof.
  apply (for_each_ind _
           (λ _ rs _ es, adds by_main es = map (λ c, Some (comp_url c)) rs));
    [done|].
  intros x v rs v2 e2 Hrest. rewrite adds_app, Hrest.
  pose proof (component_step_adds_main x v) as Hstep.
  destruct (result (component_step web urljoin x v)) as [c|].
  - destruct Hstep as (es & -> & Hes). rewrite adds_app, Hes. done.
  - by rewrite Hstep.
Qed.

End Adders.

(** C10, counterexample.  The subcategory's page is nested, so the nested
    pass is entered at the subcategory's URL and adds it: the URL of a
    subcategory that was fetched is in the visited set and counts in the
    total. *)
Lemma C10_nested_subcategory_is_counted :
  let r := scrape_main_components nested_web urljoin_root ∅ in
  elements (visited r) = [Some corps_url; Some forscom_url; Some army_url] ∧
  Some forscom_url ∈ fetches (events r) ∧
  ¬ visited_excludes_subcategories r.
Proof.
  cbv zeta.
  assert (Hresult :
    result (scrape_main_components nested_web urljoin_root ∅) =
    [mkComponent "Army" army_url main_branch ∅
       (Some [mkSubcategory "FORSCOM" forscom_url subcategory ∅
                (Some [mkItem "I Corps" corps_url (level_item 1) ∅
                         (Some [mkItem "2nd SBCT" brigade_url (level_item 2)
                                  ∅ None])])])])
    by (vm_compute; reflexivity).
  assert (Hvisited :
    elements (visited (scrape_main_components nested_web urljoin_root ∅)) =
    [Some corps_url; Some forscom_url; Some army_url])
    by (vm_compute; reflexivity).
  split; [exact Hvisited|]. split.
  - vm_compute. do 2 right. left.
  - intros Hnever. eapply Hnever.
    + rewrite Hresult. by left.
    + simpl. by left.
    + simpl. apply elem_of_elements. rewrite Hvisited. right. by left.
Qed.

(** C10, as amended.  At the end of a run the visited set holds exactly the
    URLs that were added, and each was added either by the top-level pass,
    which adds the URL of every branch it returns as the last step of that
    branch's turn, or by the nested pass on entry.  The flat extraction and
    the subcategory scan add nothing themselves: a subcategory whose page
    is flat leaves the visited set as it was, and the URL of a subcategory
    is in the set only when the nested pass was entered at it or when it is
    also the URL of a branch. *)
Theorem C10_who_adds_to_visited web urljoin v :
  let r := scrape_main_components web urljoin v in
  visited r = list_to_set (all_adds (events r)) ∧
  adds by_main (events r) = map (λ c, Some (comp_url c)) (result r) ∧
  (∀ u, u ∈ visited r ↔
        (∃ c, c ∈ result r ∧ u = Some (comp_url c)) ∨
        u ∈ adds by_nested (events r)) ∧
  (∀ soup base_url v',
     visited (scrape_flat_structure web urljoin soup base_url v') = v' ∧
     all_adds (events (scrape_flat_structure web urljoin soup base_url v')) = []) ∧
  (∀ sub_a_tag v',
     adds by_main (events (subcategory_step web urljoin sub_a_tag v')) = [] ∧
     match result (subcategory_step web urljoin sub_a_tag v') with
     | Some s =>
         match web (subcat_url s) with
         | Some sub_soup =>
             has_nested_structure sub_soup = false →
             visited (subcategory_step web urljoin sub_a_tag v') = v'
         | None => False
         end
     | None => visited (subcategory_step web urljoin sub_a_tag v') = v'
     end) ∧
  (∀ a_tag v',
     match result (component_step web urljoin a_tag v') with
     | Some c =>
         ∃ es, events (component_step web urljoin a_tag v') =
                 es ++ [EvAdd by_main (Some (comp_url c))] ∧
               adds by_main es = []
     | None => adds by_main (events (component_step web urljoin a_tag v')) = []
     end).
Proof.
  cbv zeta.
  destruct (scrape_main_components_entries web urljoin v) as (_ & _ & Hvisited).
  assert (Hmain :
    adds by_main (events (scrape_main_components web urljoin v)) =
    map (λ c, Some (comp_url c)) (result (scrape_main_components web urljoin v))).
  { rewrite scrape_main_components_run.
    destruct (web TARGET_URL) as [soup|]; [|done]. cbv zeta. simpl.
    change (adds by_main (?a :: ?es)) with (adds by_main es).
    apply for_each_component_adds_main. }
  split; [rewrite Hvisited at 1; set_solver|]. split; [exact Hmain|].
  split; [|split; [|split]].
  - intros u. rewrite Hvisited at 1.
    rewrite elem_of_union, elem_of_list_to_set, all_adds_split, Hmain.
    rewrite list_elem_of_fmap. set_solver.
  - intros soup base_url v'.
    destruct (scrape_flat_structure_frame web urljoin soup base_url v')
      as [Heq Hadds].
    rewrite Heq. simpl. by split.
  - intros sub_a_tag v'.
    split; [apply subcategory_step_adds_main|apply subcategory_step_flat].
  - intros a_tag v'. apply component_step_adds_main.
Qed.

Lemma C10_who_adds_to_visited_witness :
  visited (subcategory_step flat_web urljoin_root
             (heading_link "FORSCOM" forscom_url) ∅) = ∅.
Proof.
  destruct (C10_who_adds_to_visited flat_web urljoin_root ∅)
    as (_ & _ & _ & _ & Hsub & _).
  destruct (Hsub (heading_link "FORSCOM" forscom_url) ∅) as [_ Hflat].
  exact (Hflat eq_refl).
Defined.

(** ** When the entry page does not load, and when the result is empty *)

Section Entry.
Variable web : string → option Document.
Variable urljoin : string → string → string.

Lemma for_each_component_empty l :
  result (for_each (component_step web urljoin) l ∅) = [] ↔
  Forall (candidate_skipped web urljoin) l.
Proof.
  induction l as [|a_tag l IH]; [by split; [constructor|]|].
  rewrite for_each_cons, component_step_run, Forall_cons.
  unfold candidate_skipped at 1.
  destruct (find_h4 a_tag) as [name|]; [|simpl; rewrite IH; tauto].
  cbv zeta. rewrite bool_decide_eq_false_2 by apply not_elem_of_empty.
  destruct (get_href a_tag) as [href|]; simpl.
  - destruct (web (resolve urljoin BASE_URL href)) as [soup_branch|]; simpl.
    + split; [done|]. by intros [[?|?] _].
    + rewrite IH. tauto.
  - rewrite IH. tauto.
Qed.

End Entry.

(** C9, counterexample.  The entry page loads and lists one branch whose
    page does not load: the run returns the empty list. *)
Lemma C9_empty_result_with_entry_page :
  let r := scrape_main_components broken_branch_web urljoin_root ∅ in
  result r = [] ∧
  fetches (events r) = [Some TARGET_URL; Some army_url] ∧
  ¬ empty_only_if_entry_fails broken_branch_web r.
Proof.
  cbv zeta. split; [by vm_compute|]. split; [by vm_compute|].
  intros Honly. discriminate Honly. by vm_compute.
Qed.

(** C9, as amended.  When the entry page does not load, the run returns the
    empty list, having fetched the entry URL and nothing else, with an
    empty visited set.  The result is empty in one more case: the entry
    page loads and every candidate on it is skipped, because it has no
    heading or because its own page does not load (in particular when the
    page has no candidate). *)
Theorem C9_entry_failure_and_empty_result web urljoin v :
  (web TARGET_URL = None →
   scrape_main_components web urljoin v = ([], ∅, [EvFetch (Some TARGET_URL)])) ∧
  (result (scrape_main_components web urljoin v) = [] ↔
   web TARGET_URL = None ∨
   ∃ soup, web TARGET_URL = Some soup ∧
           Forall (candidate_skipped web urljoin) (select soup MAIN_SELECTOR)).
Proof.
  rewrite scrape_main_components_run.
  destruct (web TARGET_URL) as [soup|]; cbv zeta; simpl.
  - split; [done|]. rewrite for_each_component_empty. split.
    + intros Hall. right. by exists soup.
    + by intros [?|(soup' & [= <-] & Hall)].
  - split; [done|]. split; [by left|done].
Qed.

Lemma C9_entry_failure_and_empty_result_witness :
  scrape_main_components (λ _, None) urljoin_root ∅ =
  ([], ∅, [EvFetch (Some TARGET_URL)]).
Proof.
  apply (C9_entry_failure_and_empty_result (λ _, None) urljoin_root ∅).
  reflexivity.
Defined.

(** ** Pages that do not load *)

(** C4, counterexample.  A branch whose page does not load gives no node,
    and neither does a subcategory whose page does not load: the
    candidate is dropped and the scan moves on. *)
Lemma C4_failed_branch_is_dropped :
  result (scrape_main_components broken_branch_web urljoin_root ∅) = [] ∧
  result (scrape_main_components broken_subcategory_web urljoin_root ∅) =
    [mkComponent "Army" army_url main_branch ∅ None] ∧
  ¬ failed_branch_yields_node broken_branch_web urljoin_root ∧
  ¬ failed_subcategory_yields_node broken_subcategory_web urljoin_root.
Proof.
  split; [by vm_compute|]. split; [by vm_compute|]. split.
  - intros Hnode.
    destruct (Hnode (heading_link "Army" army_url) "Army" army_url ∅)
      as [c Hc]; [done|done|by vm_compute|].
    vm_compute in Hc. discriminate Hc.
  - intros Hnode.
    destruct (Hnode (heading_link "FORSCOM" forscom_url) "FORSCOM" forscom_url ∅)
      as [s Hs]; [done|done|by vm_compute|].
    vm_compute in Hs. discriminate Hs.
Qed.

(** C4, as amended.  No failed fetch stops the crawl, and what it costs
    depends on where it happens.  In the nested pass a child whose page
    does not load is still a node, with no metadata and no subunits, and so
    is a flat item; a nested-pass invocation whose own page does not load
    returns the empty list.  In the top-level pass a branch or subcategory
    candidate whose page does not load is skipped: it gives no node, the
    visited set is unchanged and the loop goes on with the next
    candidate. *)
Theorem C4_failed_fetch_is_absorbed web urljoin :
  (∀ rec depth max_depth element href v,
     get_href element = Some href → is_empty (get_text element) = false →
     Some (resolve urljoin BASE_URL href) ∉ v →
     web (resolve urljoin BASE_URL href) = None →
     nested_step web urljoin rec depth max_depth element v =
     (Some (mkItem (get_text element) (resolve urljoin BASE_URL href)
              (level_item (depth + 1)) ∅ None),
      v,
      EvFetch (Some (resolve urljoin BASE_URL href))
        :: (if depth <? max_depth then [EvSleep 300] else []))) ∧
  (∀ base_url element href v,
     get_href element = Some href → is_empty (get_text element) = false →
     web (resolve urljoin base_url href) = None →
     flat_step web urljoin base_url element v =
     (Some (mkItem (get_text element) (resolve urljoin base_url href)
              flat_item ∅ None),
      v, [EvFetch (Some (resolve urljoin base_url href))])) ∧
  (∀ url depth max_depth v,
     Some url ∉ v → depth ≤ max_depth → web url = None →
     scrape_nested_structure web urljoin url depth max_depth v =
     ([], {[Some url]} ∪ v, [EvAdd by_nested (Some url); EvFetch (Some url)])) ∧
  (∀ a_tag name v,
     find_h4 a_tag = Some name →
     resolve urljoin BASE_URL <$> get_href a_tag ∉ v →
     (resolve urljoin BASE_URL <$> get_href a_tag) ≫= web = None →
     component_step web urljoin a_tag v =
     (None, v, [EvFetch (resolve urljoin BASE_URL <$> get_href a_tag)])) ∧
  (∀ sub_a_tag name v,
     find_h4 sub_a_tag = Some name →
     (resolve urljoin BASE_URL <$> get_href sub_a_tag) ≫= web = None →
     subcategory_step web urljoin sub_a_tag v =
     (None, v, [EvFetch (resolve urljoin BASE_URL <$> get_href sub_a_tag)])) ∧
  (∀ a_tag rest v es,
     component_step web urljoin a_tag v = (None, v, es) →
     for_each (component_step web urljoin) (a_tag :: rest) v =
     (result (for_each (component_step web urljoin) rest v),
      visited (for_each (component_step web urljoin) rest v),
      es ++ events (for_each (component_step web urljoin) rest v))).
Proof.
  repeat split.
  - intros rec depth max_depth element href v Hhref Hname Hnew Hfail.
    rewrite nested_step_run, Hhref, Hname. cbv zeta.
    rewrite (bool_decide_eq_false_2 _ Hnew).
    unfold children_run. rewrite Hfail.
    by destruct (depth <? max_depth).
  - intros base_url element href v Hhref Hname Hfail.
    rewrite flat_step_run, Hhref, Hname. cbv zeta. by rewrite Hfail.
  - intros url depth max_depth v Hnew Hdepth Hfail.
    rewrite scrape_nested_structure_eq, nested_body_run.
    rewrite (bool_decide_eq_false_2 _ Hnew).
    apply Nat.ltb_ge in Hdepth. by rewrite Hdepth, Hfail.
  - intros a_tag name v Hh4 Hnew Hfail.
    rewrite component_step_run, Hh4. cbv zeta.
    by rewrite (bool_decide_eq_false_2 _ Hnew), Hfail.
  - intros sub_a_tag name v Hh4 Hfail.
    rewrite subcategory_step_run, Hh4. cbv zeta. by rewrite Hfail.
  - intros a_tag rest v es Hskip. by rewrite for_each_cons, Hskip.
Qed.

Lemma C4_failed_fetch_is_absorbed_witness :
  nested_step nested_web urljoin_root
    (scrape_nested_structure nested_web urljoin_root) 1 3
    (link "2nd SBCT" brigade_url) ∅ =
  (Some (mkItem "2nd SBCT" brigade_url (level_item 2) ∅ None), ∅,
   [EvFetch (Some brigade_url); EvSleep 300]).
Proof.
  refine (proj1 (C4_failed_fetch_is_absorbed nested_web urljoin_root)
            (scrape_nested_structure nested_web urljoin_root) 1 3
            (link "2nd SBCT" brigade_url) brigade_url ∅ eq_refl eq_refl _ _).
  - apply not_elem_of_empty.
  - vm_compute. reflexivity.
Defined.

(** ** Names *)

Lemma is_empty_false name : is_empty name = false → name ≠ "".
Proof. by destruct name. Qed.

(** C3.  The nested pass and the flat extraction drop an element whose text
    is empty, so every node they build has a name.  The top-level pass and
    its subcategory scan only test that the heading exists: a candidate
    whose heading is empty becomes a node whose name is the empty string,
    as the two runs show. *)
Theorem C3_top_level_pass_keeps_empty_names :
  (∀ web urljoin url depth max_depth v,
     Forall (item_forall (λ n, item_name n ≠ ""))
       (result (scrape_nested_structure web urljoin url depth max_depth v))) ∧
  (∀ web urljoin soup base_url v,
     Forall (item_forall (λ n, item_name n ≠ ""))
       (result (scrape_flat_structure web urljoin soup base_url v))) ∧
  result (scrape_main_components unnamed_branch_web urljoin_root ∅) =
    [mkComponent "" army_url main_branch ∅ None] ∧
  result (scrape_main_components unnamed_subcategory_web urljoin_root ∅) =
    [mkComponent "Army" army_url main_branch ∅
       (Some [mkSubcategory "" forscom_url subcategory ∅ None])].
Proof.
  split; [|split; [|split; by vm_compute]].
  - intros web urljoin url depth max_depth v.
    apply scrape_nested_structure_forall.
    + intros name href d info l Hname _. by apply is_empty_false.
    + intros name href info Hname. by apply is_empty_false.
  - intros web urljoin soup base_url v.
    apply scrape_flat_structure_forall.
    intros name href info Hname. by apply is_empty_false.
Qed.

(** ** Child collections *)

Lemma set_if_nonempty_ok {A} (l : list A) :
  absent_or_nonempty (set_if_nonempty l).
Proof. by destruct l. Qed.

Lemma get_list_set_if_nonempty {A} (l : list A) :
  get_list (set_if_nonempty l) = l.
Proof. by destruct l. Qed.

Section Fields.
Variable web : string → option Document.
Variable urljoin : string → string → string.

Lemma scrape_nested_structure_fields url depth max_depth v :
  Forall item_fields_ok
    (result (scrape_nested_structure web urljoin url depth max_depth v)).
Proof.
  apply scrape_nested_structure_forall.
  - intros name href d info l _ _. apply set_if_nonempty_ok.
  - by intros name href info _.
Qed.

Lemma scrape_flat_structure_fields soup base_url v :
  Forall item_fields_ok
    (result (scrape_flat_structure web urljoin soup base_url v)).
Proof.
  apply scrape_flat_structure_forall. by intros name href info _.
Qed.

Lemma for_each_subcategory_fields l :
  ∀ v, Forall subcat_fields_ok
         (result (for_each (subcategory_step web urljoin) l v)).
Proof.
  apply (for_each_ind _ (λ _ rs _ _, Forall subcat_fields_ok rs));
    [constructor|].
  intros x v rs _ _ Hrs. rewrite subcategory_step_run.
  destruct (find_h4 x) as [sub_name|]; [|done]. cbv zeta.
  destruct (_ ≫= web) as [sub_soup|]; [|done].
  destruct (resolve urljoin BASE_URL <$> get_href x) as [sub_href|]; [|done].
  simpl. constructor; [|done]. split; simpl.
  - apply set_if_nonempty_ok.
  - rewrite get_list_set_if_nonempty. unfold units_run.
    destruct (has_nested_structure sub_soup);
      [apply scrape_nested_structure_fields|apply scrape_flat_structure_fields].
Qed.

Lemma for_each_component_fields l :
  ∀ v, Forall comp_fields_ok
         (result (for_each (component_step web urljoin) l v)).
Proof.
  apply (for_each_ind _ (λ _ rs _ _, Forall comp_fields_ok rs));
    [constructor|].
  intros x v rs _ _ Hrs. rewrite component_step_run.
  destruct (find_h4 x) as [name|]; [|done]. cbv zeta.
  destruct (bool_decide _); [done|].
  destruct (_ ≫= web) as [soup_branch|]; [|done].
  destruct (resolve urljoin BASE_URL <$> get_href x) as [href|]; [|done].
  simpl. constructor; [|done]. split; simpl.
  - apply set_if_nonempty_ok.
  - rewrite get_list_set_if_nonempty. apply for_each_subcategory_fields.
Qed.

(** The field of a node is [set_if_nonempty] of the list of children
    computed for it. *)
Lemma nested_step_subunits rec depth max_depth element v :
  match result (nested_step web urljoin rec depth max_depth element v) with
  | Some i =>
      item_subunits i =
      set_if_nonempty
        (result (children_run web urljoin rec depth max_depth (item_url i) v))
  | None => True
  end.
Proof.
  rewrite nested_step_run.
  destruct (get_href element) as [href|]; [|done].
  destruct (is_empty (get_text element)); [done|]. cbv zeta.
  by destruct (bool_decide _).
Qed.

Lemma subcategory_step_units sub_a_tag v :
  match result (subcategory_step web urljoin sub_a_tag v) with
  | Some s =>
      ∃ sub_soup,
        web (subcat_url s) = Some sub_soup ∧
        subcat_units s =
        set_if_nonempty
          (result (units_run web urljoin sub_soup (subcat_url s) v))
  | None => True
  end.
Proof.
  rewrite subcategory_step_run.
  destruct (find_h4 sub_a_tag) as [sub_name|]; [|done]. cbv zeta.
  destruct (get_href sub_a_tag) as [href|]; simpl; [|done].
  destruct (web (resolve urljoin BASE_URL href)) as [sub_soup|] eqn:Hweb;
    [|done].
  simpl. by exists sub_soup.
Qed.

Lemma component_step_subcategories a_tag v :
  match result (component_step web urljoin a_tag v) with
  | Some c =>
      ∃ soup_branch,
        web (comp_url c) = Some soup_branch ∧
        comp_subcategories c =
        set_if_nonempty
          (result (for_each (subcategory_step web urljoin)
                     (select soup_branch MAIN_SELECTOR) v))
  | None => True
  end.
Proof.
  rewrite component_step_run.
  destruct (find_h4 a_tag) as [name|]; [|done]. cbv zeta.
  destruct (bool_decide _); [done|].
  destruct (get_href a_tag) as [href|]; simpl; [|done].
  destruct (web (resolve urljoin BASE_URL href)) as [soup_branch|] eqn:Hweb;
    [|done].
  simpl. by exists soup_branch.
Qed.

End Fields.

(** C6.  In the tree of a run every child-collection field ([subcategories]
    of a branch, [units] of a subcategory, [subunits] of an item at any
    depth) is absent or holds a non-empty list.  Each field is set from the
    list of children computed for its node, and only when that list is not
    empty: the field is present exactly when the list is non-empty, and
    then holds that list. *)
Theorem C6_child_field_present_iff_children web urljoin v :
  Forall comp_fields_ok (result (scrape_main_components web urljoin v)) ∧
  (∀ (A : Type) (l : list A),
     (is_Some (set_if_nonempty l) ↔ l ≠ []) ∧
     (∀ l', set_if_nonempty l = Some l' → l' = l)) ∧
  (∀ a_tag v',
     match result (component_step web urljoin a_tag v') with
     | Some c =>
         ∃ soup_branch,
           web (comp_url c) = Some soup_branch ∧
           comp_subcategories c =
           set_if_nonempty
             (result (for_each (subcategory_step web urljoin)
                        (select soup_branch MAIN_SELECTOR) v'))
     | None => True
     end) ∧
  (∀ sub_a_tag v',
     match result (subcategory_step web urljoin sub_a_tag v') with
     | Some s =>
         ∃ sub_soup,
           web (subcat_url s) = Some sub_soup ∧
           subcat_units s =
           set_if_nonempty
             (result (units_run web urljoin sub_soup (subcat_url s) v'))
     | None => True
     end) ∧
  (∀ depth max_depth element v',
     match result (nested_step web urljoin (scrape_nested_structure web urljoin)
                     depth max_depth element v') with
     | Some i =>
         item_subunits i =
         set_if_nonempty
           (result (children_run web urljoin (scrape_nested_structure web urljoin)
                      depth max_depth (item_url i) v'))
     | None => True
     end) ∧
  (∀ soup base_url v',
     Forall (λ i, item_subunits i = None)
       (result (scrape_flat_structure web urljoin soup base_url v'))).
Proof.
  split; [|split; [|split; [|split; [|split]]]].
  - rewrite scrape_main_components_run.
    destruct (web TARGET_URL) as [soup|]; [|constructor].
    apply for_each_component_fields.
  - intros A l. split.
    + destruct l; simpl; split; done.
    + intros l'. destruct l; [done|]. by intros [= <-].
  - intros a_tag v'. apply component_step_subcategories.
  - intros sub_a_tag v'. apply subcategory_step_units.
  - intros depth max_depth element v'. apply nested_step_subunits.
  - intros soup base_url v'. unfold scrape_flat_structure.
    apply (for_each_ind _ (λ _ rs _ _, Forall (λ i, item_subunits i = None) rs));
      [constructor|].
    intros x v0 rs _ _ Hrs. rewrite flat_step_run.
    destruct (get_href x) as [href|]; [|done].
    destruct (is_empty (get_text x)); [done|]. simpl. by constructor.
Qed.

Lemma C6_child_field_present_iff_children_witness :
  set_if_nonempty [link "I Corps" corps_url] = Some [link "I Corps" corps_url] ∧
  [link "I Corps" corps_url] = [link "I Corps" corps_url].
Proof.
  split; [reflexivity|].
  destruct (C6_child_field_present_iff_children flat_web urljoin_root ∅)
    as (_ & Hset & _).
  apply (Hset Element [link "I Corps" corps_url]). reflexivity.
Defined.

(** * Further properties *)

(** ** The statistics, field by field *)

Lemma count_where_app {A} (p : A → bool) l1 l2 :
  count_where p (l1 ++ l2) = count_where p l1 + count_where p l2.
Proof. unfold count_where. by rewrite List.filter_app, length_app. Qed.

Lemma count_where_cons {A} (p : A → bool) x l :
  count_where p (x :: l) = b2n (p x) + count_where p l.
Proof. unfold count_where. simpl. by destruct (p x). Qed.

Lemma count_where_le {A} (p : A → bool) l : count_where p l ≤ List.length l.
Proof.
  induction l as [|x xs IH]; [done|].
  rewrite count_where_cons. simpl. destruct (p x); simpl; lia.
Qed.

(** A component of the counts that adds, per item, one when the item
    passes [p]: it counts the nodes that pass [p]. *)
Lemma count_item_flag (proj : Counts → nat) (p : Item → bool) :
  (∀ a b, proj (add4 a b) = proj a + proj b) →
  (∀ n, proj (n, 0, 0, 0) = 0) →
  (∀ name url type info subunits,
     proj (0, b2n (bool_decide (type = flat_item)), b2n (has_location info),
           b2n (has_key "full_unit_name" info)) =
     b2n (p (mkItem name url type info subunits))) →
  ∀ i, proj (count_item i) = count_where p (item_nodes i).
Proof.
  intros Hadd Hlen Hown.
  induction i as [name url type info|name url type info subunits IH]
    using Item_nested_ind.
  - simpl. rewrite count_where_cons, (Hown name url type info None).
    unfold count_where. simpl. lia.
  - rewrite count_item_Some, !Hadd, Hlen.
    change (item_nodes (mkItem name url type info (Some subunits)))
      with (mkItem name url type info (Some subunits)
              :: flat_map item_nodes subunits).
    rewrite count_where_cons, (Hown name url type info (Some subunits)).
    simpl. f_equal.
    induction IH as [|x xs Hx _ IHxs]; [apply (Hlen 0)|].
    simpl count_subunits. simpl flat_map.
    by rewrite Hadd, count_where_app, Hx, IHxs.
Qed.

Lemma count_subunits_flag (proj : Counts → nat) (p : Item → bool) :
  (∀ a b, proj (add4 a b) = proj a + proj b) →
  (∀ n, proj (n, 0, 0, 0) = 0) →
  (∀ name url type info subunits,
     proj (0, b2n (bool_decide (type = flat_item)), b2n (has_location info),
           b2n (has_key "full_unit_name" info)) =
     b2n (p (mkItem name url type info subunits))) →
  ∀ items, proj (count_subunits items) = count_where p (flat_map item_nodes items).
Proof.
  intros Hadd Hlen Hown items. induction items as [|x xs IH]; [apply (Hlen 0)|].
  simpl. by rewrite Hadd, count_where_app, (count_item_flag proj p), IH.
Qed.

(** The four counts of [count_subunits], each as a count of nodes. *)
Lemma count_subunits_closed items :
  count_subunits items =
  (List.length (flat_map descendants items),
   count_where is_flat_item (flat_map item_nodes items),
   count_where (λ i, has_location (item_info i)) (flat_map item_nodes items),
   count_where (λ i, has_key "full_unit_name" (item_info i))
     (flat_map item_nodes items)).
Proof.
  pose proof (count_subunits_descendants items) as H1.
  pose proof (count_subunits_flag (λ c, c.1.1.2) is_flat_item) as H2.
  pose proof (count_subunits_flag (λ c, c.1.2)
                (λ i, has_location (item_info i))) as H3.
  pose proof (count_subunits_flag (λ c, c.2)
                (λ i, has_key "full_unit_name" (item_info i))) as H4.
  specialize (H2 ltac:(by intros [[[??]?]?] [[[??]?]?]) ltac:(done)
                 ltac:(done) items).
  specialize (H3 ltac:(by intros [[[??]?]?] [[[??]?]?]) ltac:(done)
                 ltac:(done) items).
  specialize (H4 ltac:(by intros [[[??]?]?] [[[??]?]?]) ltac:(done)
                 ltac:(done) items).
  destruct (count_subunits items) as [[[c f] l] n].
  unfold count_of in H1. simpl in *. by subst.
Qed.

Lemma length_items (units : list Item) :
  List.length (flat_map item_nodes units) =
  List.length units + List.length (flat_map descendants units).
Proof. apply length_flat_map_item_nodes. Qed.

(** The loop over the subcategories of a branch, in closed form. *)
Lemma fold_count_subcat_closed subcats stats :
  fold_left count_subcat subcats stats =
  let units := flat_map (λ subcat, get_list (subcat_units subcat)) subcats in
  mkStats (stats_main_branches stats) (stats_subcategories stats)
    (stats_units stats + List.length units)
    (stats_subunits stats + List.length (flat_map descendants units))
    (stats_flat_items stats + count_where is_flat_item (flat_map item_nodes units))
    (stats_with_location stats +
       (count_where (λ s, has_location (subcat_info s)) subcats +
        count_where (λ i, has_location (item_info i)) (flat_map item_nodes units)))
    (stats_with_full_name stats +
       (count_where (λ s, has_key "full_unit_name" (subcat_info s)) subcats +
        count_where (λ i, has_key "full_unit_name" (item_info i))
          (flat_map item_nodes units))).
Proof.
  revert stats. induction subcats as [|subcat subcats IH]; intros stats.
  - destruct stats. cbv zeta. simpl. unfold count_where. simpl.
    f_equal; lia.
  - simpl fold_left. rewrite IH. cbv zeta.
    unfold count_subcat, stats_add_counts, stats_add_flags.
    rewrite count_subunits_closed. simpl.
    rewrite !flat_map_app, !length_app, !count_where_app, !count_where_cons.
    f_equal; lia.
Qed.

(** The whole fold, in closed form. *)
Lemma count_statistics_closed_from data stats :
  fold_left count_branch data stats =
  mkStats (stats_main_branches stats)
    (stats_subcategories stats + List.length (subcats_of data))
    (stats_units stats + List.length (units_of data))
    (stats_subunits stats + List.length (flat_map descendants (units_of data)))
    (stats_flat_items stats + count_where is_flat_item (items_of data))
    (stats_with_location stats +
       (count_where (λ b, has_location (comp_info b)) data +
        count_where (λ s, has_location (subcat_info s)) (subcats_of data) +
        count_where (λ i, has_location (item_info i)) (items_of data)))
    (stats_with_full_name stats +
       (count_where (λ b, has_key "full_unit_name" (comp_info b)) data +
        count_where (λ s, has_key "full_unit_name" (subcat_info s)) (subcats_of data) +
        count_where (λ i, has_key "full_unit_name" (item_info i)) (items_of data))).
Proof.
  revert stats. induction data as [|branch data IH]; intros stats.
  - destruct stats. unfold items_of, units_of, subcats_of, count_where. simpl.
    f_equal; lia.
  - simpl fold_left. rewrite IH. unfold count_branch.
    rewrite fold_count_subcat_closed. cbv zeta.
    unfold stats_add_flags, items_of, units_of, subcats_of. simpl.
    rewrite !flat_map_app, !length_app, !count_where_app, !count_where_cons.
    f_equal; lia.
Qed.

Lemma count_statistics_closed data :
  count_statistics data =
  mkStats (List.length data) (List.length (subcats_of data))
    (List.length (units_of data))
    (List.length (flat_map descendants (units_of data)))
    (count_where is_flat_item (items_of data))
    (count_where (λ b, has_location (comp_info b)) data +
     count_where (λ s, has_location (subcat_info s)) (subcats_of data) +
     count_where (λ i, has_location (item_info i)) (items_of data))
    (count_where (λ b, has_key "full_unit_name" (comp_info b)) data +
     count_where (λ s, has_key "full_unit_name" (subcat_info s)) (subcats_of data) +
     count_where (λ i, has_key "full_unit_name" (item_info i)) (items_of data)).
Proof. unfold count_statistics. by rewrite count_statistics_closed_from. Qed.

(** X1. [main_branches] is the number of branches, [subcategories] the
    number of subcategories of all branches, and [units] and [subunits]
    together count every item node of the tree once. *)
Theorem X1_statistics_count_every_node (data : list Component) :
  stats_main_branches (count_statistics data) = List.length data ∧
  stats_subcategories (count_statistics data) = List.length (subcats_of data) ∧
  stats_units (count_statistics data) + stats_subunits (count_statistics data) =
    List.length (items_of data).
Proof.
  rewrite count_statistics_closed. simpl. repeat split.
  unfold items_of. by rewrite length_items.
Qed.

(** X2. [flat_items] is the number of nodes tagged [flat_item] among all
    item nodes, top-level units included, at any depth; it never exceeds
    [units + subunits]. *)
Theorem X2_statistics_flat_items (data : list Component) :
  stats_flat_items (count_statistics data) =
    count_where is_flat_item (items_of data) ∧
  stats_flat_items (count_statistics data) ≤
    stats_units (count_statistics data) + stats_subunits (count_statistics data).
Proof.
  rewrite count_statistics_closed. simpl. split; [done|].
  rewrite <- length_items. apply count_where_le.
Qed.

(** X3. [with_location] counts the branches, subcategories and item nodes
    that carry [location_name] or [location_details] (a node with both
    counts once), and [with_full_name] those that carry [full_unit_name]. *)
Theorem X3_statistics_metadata_counts (data : list Component) :
  stats_with_location (count_statistics data) =
    count_where (λ b, has_location (comp_info b)) data +
    count_where (λ s, has_location (subcat_info s)) (subcats_of data) +
    count_where (λ i, has_location (item_info i)) (items_of data) ∧
  stats_with_full_name (count_statistics data) =
    count_where (λ b, has_key "full_unit_name" (comp_info b)) data +
    count_where (λ s, has_key "full_unit_name" (subcat_info s)) (subcats_of data) +
    count_where (λ i, has_key "full_unit_name" (item_info i)) (items_of data).
Proof. by rewrite count_statistics_closed. Qed.

(** X4. The statistics of two trees put one after the other are the sums,
    field by field, of their statistics; the empty tree counts nothing. *)
Theorem X4_statistics_are_additive (data1 data2 : list Component) :
  count_statistics (data1 ++ data2) =
    stats_plus (count_statistics data1) (count_statistics data2) ∧
  count_statistics [] = mkStats 0 0 0 0 0 0 0.
Proof.
  split; [|done]. rewrite !count_statistics_closed.
  unfold stats_plus, items_of, units_of, subcats_of. simpl.
  rewrite ?flat_map_app, ?length_app, ?count_where_app.
  rewrite ?flat_map_app, ?length_app, ?count_where_app.
  rewrite ?flat_map_app, ?length_app, ?count_where_app.
  f_equal; lia.
Qed.

(** ** The flat extraction and the order of the children *)

Section Order.
Variable web : string → option Document.
Variable urljoin : string → string → string.

Lemma for_each_flat_step_closed base_url l v :
  for_each (flat_step web urljoin base_url) l v =
  (map (flat_item_of web urljoin base_url) (List.filter link_ok l), v,
   map (λ i, EvFetch (Some (item_url i)))
     (map (flat_item_of web urljoin base_url) (List.filter link_ok l))).
Proof.
  induction l as [|x xs IH]; [done|].
  rewrite for_each_cons, flat_step_run. simpl List.filter.
  destruct (link_ok x) eqn:Hok; unfold link_ok in Hok;
    destruct (get_href x) as [href|] eqn:Hhref; try discriminate;
    destruct (is_empty (get_text x)); try discriminate;
    cbv zeta; simpl; rewrite IH; simpl; try done.
  unfold flat_item_of. by rewrite Hhref.
Qed.

Lemma scrape_flat_structure_closed soup base_url v :
  scrape_flat_structure web urljoin soup base_url v =
  (map (flat_item_of web urljoin base_url)
     (List.filter link_ok (select soup SELECTORS.flat_list)), v,
   map (λ i, EvFetch (Some (item_url i)))
     (map (flat_item_of web urljoin base_url)
        (List.filter link_ok (select soup SELECTORS.flat_list)))).
Proof. apply for_each_flat_step_closed. Qed.

Lemma for_each_nested_step_sublist rec depth max_depth l :
  ∀ v, map item_name
         (result (for_each (nested_step web urljoin rec depth max_depth) l v))
       `sublist_of` map get_text l.
Proof.
  induction l as [|x xs IH]; intros v; [done|].
  rewrite for_each_cons, nested_step_run.
  destruct (get_href x) as [href|]; [|simpl; by apply sublist_cons].
  destruct (is_empty (get_text x)); [simpl; by apply sublist_cons|].
  cbv zeta. destruct (bool_decide _); [simpl; by apply sublist_cons|].
  simpl. by apply sublist_skip.
Qed.

End Order.

(** X5. The flat extraction returns one node per link of the flat-list
    selection that has an [href] and a non-empty text, in document order;
    each node is a [flat_item] without subunits whose URL is the resolved
    link; exactly these URLs are fetched, once per node and in the same
    order; the visited set is left as it was. *)
Theorem X5_flat_extraction_is_a_filter_map web urljoin soup base_url v :
  let items := map (flat_item_of web urljoin base_url)
                 (List.filter link_ok (select soup SELECTORS.flat_list)) in
  scrape_flat_structure web urljoin soup base_url v =
  (items, v, map (λ i, EvFetch (Some (item_url i))) items).
Proof. apply scrape_flat_structure_closed. Qed.

(** X6. The children that an invocation of the nested pass returns keep
    the document order: their names are a subsequence of the texts of the
    elements that the selector of that depth matches on the page. *)
Theorem X6_nested_children_in_document_order
    web urljoin url depth max_depth v soup :
  web url = Some soup →
  map item_name
    (result (scrape_nested_structure web urljoin url depth max_depth v))
  `sublist_of` map get_text (select soup (level_selector depth)).
Proof.
  intros Hweb. rewrite scrape_nested_structure_eq, nested_body_run, Hweb.
  destruct (_ || _); [apply sublist_nil_l|]. cbv zeta. simpl.
  apply for_each_nested_step_sublist.
Qed.

Lemma X6_nested_children_in_document_order_witness :
  map item_name
    (result (scrape_nested_structure nested_web urljoin_root forscom_url 0 3 ∅))
  `sublist_of` map get_text [link "I Corps" corps_url].
Proof.
  apply (X6_nested_children_in_document_order nested_web urljoin_root
           forscom_url 0 3 ∅ (marked_roster_page [link "I Corps" corps_url])).
  reflexivity.
Defined.

(** X7. A run clears the visited set first: its result, its final visited
    set and everything it does are the same whatever the visited set held
    before. *)
Theorem X7_run_forgets_earlier_visits web urljoin v1 v2 :
  scrape_main_components web urljoin v1 = scrape_main_components web urljoin v2.
Proof. by rewrite !scrape_main_components_run. Qed.

(** ** The tree of a run, level by level *)

Lemma for_each_result_forall {A B} (body : A → M (option B)) (P : B → Prop) :
  (∀ x v, match result (body x v) with Some y => P y | None => True end) →
  ∀ l v, Forall P (result (for_each body l v)).
Proof.
  intros Hbody.
  apply (for_each_ind body (λ _ rs _ _, Forall P rs)); [constructor|].
  intros x v rs _ _ Hrs. specialize (Hbody x v).
  destruct (result (body x v)); [by constructor|done].
Qed.

Lemma for_each_events {A B} (body : A → M (option B)) (P : list event → Prop) :
  P [] → (∀ es1 es2, P es1 → P es2 → P (es1 ++ es2)) →
  (∀ x v, P (events (body x v))) →
  ∀ l v, P (events (for_each body l v)).
Proof.
  intros Hnil Happ Hbody.
  apply (for_each_ind body (λ _ _ _ es, P es)); [done|].
  intros x v rs _ e2 He2. by apply Happ.
Qed.

Section Levels.
Variable web : string → option Document.
Variable urljoin : string → string → string.

(** A property of every subcategory that the scan builds holds of every
    subcategory of the tree. *)
Lemma scrape_main_components_subcats (S : Subcategory → Prop) :
  (∀ sub_a_tag v,
     match result (subcategory_step web urljoin sub_a_tag v) with
     | Some s => S s
     | None => True
     end) →
  ∀ v, Forall S (subcats_of (result (scrape_main_components web urljoin v))).
Proof.
  intros Hsub v. rewrite scrape_main_components_run.
  destruct (web TARGET_URL) as [soup|]; [|constructor]. cbv zeta. simpl.
  apply (for_each_ind _ (λ _ rs _ _, Forall S (subcats_of rs))); [constructor|].
  intros x v0 rs _ _ Hrs. rewrite component_step_run.
  destruct (find_h4 x) as [name|]; [|done]. cbv zeta.
  destruct (bool_decide _); [done|].
  destruct (_ ≫= web) as [soup_branch|]; [|done].
  destruct (resolve urljoin BASE_URL <$> get_href x) as [href|]; [|done].
  simpl. unfold subcats_of. simpl. apply Forall_app. split; [|done].
  rewrite get_list_set_if_nonempty. by apply for_each_result_forall.
Qed.

(** A property of every node that the nested pass and the flat extraction
    build holds of every item node of the tree. *)
Lemma scrape_main_components_items (Q : Item → Prop) :
  (∀ url v, Forall (item_forall Q)
              (result (scrape_nested_structure web urljoin url 0 3 v))) →
  (∀ soup base_url v,
     Forall (item_forall Q)
       (result (scrape_flat_structure web urljoin soup base_url v))) →
  ∀ v, Forall Q (items_of (result (scrape_main_components web urljoin v))).
Proof.
  intros Hnested Hflat v. unfold items_of, units_of.
  apply Forall_flat_map_item_nodes, List.Forall_flat_map.
  apply scrape_main_components_subcats. intros sub_a_tag v0.
  rewrite subcategory_step_run.
  destruct (find_h4 sub_a_tag) as [sub_name|]; [|done]. cbv zeta.
  destruct (_ ≫= web) as [sub_soup|]; [|done].
  destruct (resolve urljoin BASE_URL <$> get_href sub_a_tag) as [sub_href|];
    [|done].
  simpl. rewrite get_list_set_if_nonempty. unfold units_run.
  by destruct (has_nested_structure sub_soup).
Qed.

(** What a turn of the main loop does to the visited set. *)
Lemma component_step_visit a_tag v :
  v ⊆ visited (component_step web urljoin a_tag v) ∧
  match result (component_step web urljoin a_tag v) with
  | Some c =>
      (Some (comp_url c) ∉ v) ∧
      Some (comp_url c) ∈ visited (component_step web urljoin a_tag v) ∧
      is_Some (web (comp_url c))
  | None => True
  end.
Proof.
  split.
  { destruct (component_step_entries web urljoin a_tag v) as (_ & _ & ->).
    set_solver. }
  rewrite component_step_run.
  destruct (find_h4 a_tag) as [name|]; [|done]. cbv zeta.
  destruct (bool_decide _) eqn:Hseen; [done|].
  apply bool_decide_eq_false in Hseen.
  destruct (get_href a_tag) as [href|]; simpl in *; [|done].
  destruct (web (resolve urljoin BASE_URL href)) as [soup_branch|] eqn:Hweb;
    [|done].
  simpl. rewrite Hweb. repeat split; [done|set_solver|by eexists].
Qed.

Lemma for_each_component_distinct l :
  ∀ v, let r := for_each (component_step web urljoin) l v in
       v ⊆ visited r ∧ NoDup (map comp_url (result r)) ∧
       Forall (λ c, (Some (comp_url c) ∉ v) ∧ Some (comp_url c) ∈ visited r ∧
                    is_Some (web (comp_url c))) (result r).
Proof.
  cbv zeta.
  apply (for_each_ind _
    (λ v rs v2 _, v ⊆ v2 ∧ NoDup (map comp_url rs) ∧
       Forall (λ c, (Some (comp_url c) ∉ v) ∧ Some (comp_url c) ∈ v2 ∧
                    is_Some (web (comp_url c))) rs)).
  { intros v. repeat split; [done|constructor|constructor]. }
  intros x v rs v2 _ (Hsub & Hnd & Hrs).
  destruct (component_step_visit x v) as [Hgrow Hstep].
  destruct (result (component_step web urljoin x v)) as [c|].
  - destruct Hstep as (Hnew & Hin & Hweb). repeat split.
    + set_solver.
    + simpl. apply NoDup_cons. split; [|done].
      intros Hdup. apply list_elem_of_fmap in Hdup as (c' & Heq & Hc').
      rewrite Forall_forall in Hrs. destruct (Hrs c' Hc') as (Hfresh & _).
      apply Hfresh. by rewrite <- Heq.
    + constructor; [repeat split; [done|set_solver|done]|].
      eapply Forall_impl; [exact Hrs|]. simpl. intros c' (? & ? & ?).
      repeat split; [set_solver|done|done].
  - repeat split; [set_solver|done|].
    eapply Forall_impl; [exact Hrs|]. simpl. intros c' (? & ? & ?).
    repeat split; [set_solver|done|done].
Qed.

End Levels.

(** X8. A run returns no branch twice: the URLs of the branches it returns
    are pairwise distinct.  Every returned branch is in the visited set at
    the end and its page loaded, and so did the page of every subcategory
    of the tree. *)
Theorem X8_branches_are_distinct_and_loaded web urljoin v :
  let r := scrape_main_components web urljoin v in
  NoDup (map comp_url (result r)) ∧
  Forall (λ c, Some (comp_url c) ∈ visited r ∧ is_Some (web (comp_url c)))
    (result r) ∧
  Forall (λ s, is_Some (web (subcat_url s))) (subcats_of (result r)).
Proof.
  cbv zeta. split; [|split].
  - rewrite scrape_main_components_run.
    destruct (web TARGET_URL) as [soup|]; [|constructor].
    apply for_each_component_distinct.
  - rewrite scrape_main_components_run.
    destruct (web TARGET_URL) as [soup|]; [|constructor]. cbv zeta. simpl.
    destruct (for_each_component_distinct web urljoin
                (select soup MAIN_SELECTOR) ∅) as (_ & _ & Hall).
    eapply Forall_impl; [exact Hall|]. simpl. by intros c (_ & ? & ?).
  - apply scrape_main_components_subcats. intros sub_a_tag v0.
    rewrite subcategory_step_run.
    destruct (find_h4 sub_a_tag) as [sub_name|]; [|done]. cbv zeta.
    destruct (get_href sub_a_tag) as [href|]; simpl; [|done].
    destruct (web (resolve urljoin BASE_URL href)) as [sub_soup|] eqn:Hweb;
      [|done].
    simpl. rewrite Hweb. by eexists.
Qed.

(** ** Every visited URL was fetched *)

Lemma adds_are_fetched_silent es : all_adds es = [] → adds_are_fetched es.
Proof. intros Hnone u Hu. rewrite Hnone in Hu. by apply elem_of_nil in Hu. Qed.

Lemma adds_are_fetched_app es1 es2 :
  adds_are_fetched es1 → adds_are_fetched es2 → adds_are_fetched (es1 ++ es2).
Proof.
  intros H1 H2 u. rewrite all_adds_app, fetches_app, !elem_of_app.
  intros [Hu|Hu]; [destruct (H1 u Hu)|destruct (H2 u Hu)]; auto.
Qed.

Lemma adds_are_fetched_fetch u es :
  adds_are_fetched es → adds_are_fetched (EvFetch u :: es).
Proof.
  intros H. apply (adds_are_fetched_app [_]); [|done].
  by apply adds_are_fetched_silent.
Qed.

(** [visited_urls.add(url)] right before [get_soup(url)]. *)
Lemma adds_are_fetched_entry who url es :
  adds_are_fetched es →
  adds_are_fetched (EvAdd who (Some url) :: EvFetch (Some url) :: es).
Proof.
  intros H. apply (adds_are_fetched_app [_; _]); [|done].
  intros u ->%list_elem_of_singleton. split; [by eexists|]. by left.
Qed.

(** [get_soup(href)] at the start of a turn and [visited_urls.add(href)]
    at its end. *)
Lemma adds_are_fetched_turn who href ms es :
  adds_are_fetched es →
  adds_are_fetched
    (EvFetch (Some href) :: es ++ [EvSleep ms; EvAdd who (Some href)]).
Proof.
  intros H u.
  change (EvFetch (Some href) :: es ++ [EvSleep ms; EvAdd who (Some href)])
    with ([EvFetch (Some href)] ++ es ++ [EvSleep ms; EvAdd who (Some href)]).
  rewrite !all_adds_app, !fetches_app, !elem_of_app. simpl.
  intros [Hu|[Hu|Hu]].
  - by apply elem_of_nil in Hu.
  - destruct (H u Hu). auto.
  - apply list_elem_of_singleton in Hu as ->. split; [by eexists|].
    left. by left.
Qed.

Lemma all_adds_fetch_map {A} (f : A → option string) (l : list A) :
  all_adds (map (λ x, EvFetch (f x)) l) = [].
Proof. by induction l. Qed.

Section Fetched.
Variable web : string → option Document.
Variable urljoin : string → string → string.

Lemma scrape_flat_structure_adds_fetched soup base_url v :
  adds_are_fetched (events (scrape_flat_structure web urljoin soup base_url v)).
Proof.
  rewrite scrape_flat_structure_closed. simpl.
  apply adds_are_fetched_silent.
  apply (all_adds_fetch_map (λ i, Some (item_url i))).
Qed.

Lemma nested_rec_adds_fetched k :
  ∀ url depth max_depth v,
    adds_are_fetched (events (nested_rec web urljoin k url depth max_depth v)).
Proof.
  induction k as [|k IH]; intros url depth max_depth v;
    [by apply adds_are_fetched_silent|].
  simpl. rewrite nested_body_run.
  destruct (_ || _); [by apply adds_are_fetched_silent|].
  destruct (web url) as [soup|];
    [|apply adds_are_fetched_entry; by apply adds_are_fetched_silent].
  cbv zeta. simpl. apply adds_are_fetched_entry.
  apply for_each_events;
    [by apply adds_are_fetched_silent|apply adds_are_fetched_app|].
  intros x v0. rewrite nested_step_run.
  destruct (get_href x) as [href|]; [|by apply adds_are_fetched_silent].
  destruct (is_empty (get_text x)); [by apply adds_are_fetched_silent|].
  cbv zeta. destruct (bool_decide _); [by apply adds_are_fetched_silent|].
  simpl. apply adds_are_fetched_fetch, adds_are_fetched_app;
    [|apply adds_are_fetched_silent; by destruct (depth <? max_depth)].
  unfold children_run.
  destruct (depth <? max_depth); [|by apply adds_are_fetched_silent].
  destruct (web (resolve urljoin BASE_URL href)) as [item_soup|];
    [|by apply adds_are_fetched_silent].
  destruct (has_nested_structure item_soup);
    [apply IH|apply scrape_flat_structure_adds_fetched].
Qed.

Lemma subcategory_step_adds_fetched sub_a_tag v :
  adds_are_fetched (events (subcategory_step web urljoin sub_a_tag v)).
Proof.
  rewrite subcategory_step_run.
  destruct (find_h4 sub_a_tag) as [sub_name|];
    [|by apply adds_are_fetched_silent]. cbv zeta.
  destruct (_ ≫= web) as [sub_soup|]; [|by apply adds_are_fetched_silent].
  destruct (resolve urljoin BASE_URL <$> get_href sub_a_tag) as [sub_href|];
    [|by apply adds_are_fetched_silent].
  simpl. apply adds_are_fetched_fetch, adds_are_fetched_app;
    [|by apply adds_are_fetched_silent].
  unfold units_run, scrape_nested_structure.
  destruct (has_nested_structure sub_soup);
    [apply nested_rec_adds_fetched|apply scrape_flat_structure_adds_fetched].
Qed.

Lemma component_step_adds_fetched a_tag v :
  adds_are_fetched (events (component_step web urljoin a_tag v)).
Proof.
  rewrite component_step_run.
  destruct (find_h4 a_tag) as [name|]; [|by apply adds_are_fetched_silent].
  cbv zeta. destruct (bool_decide _); [by apply adds_are_fetched_silent|].
  destruct (_ ≫= web) as [soup_branch|]; [|by apply adds_are_fetched_silent].
  destruct (resolve urljoin BASE_URL <$> get_href a_tag) as [href|];
    [|by apply adds_are_fetched_silent].
  simpl. apply adds_are_fetched_turn.
  apply for_each_events;
    [by apply adds_are_fetched_silent|apply adds_are_fetched_app|].
  apply subcategory_step_adds_fetched.
Qed.

End Fetched.

(** X9. At the end of a run every element of the visited set is a URL
    (never [None]) that the run fetched; at the end of an invocation of the
    nested pass every element that was not there before is one. *)
Theorem X9_visited_urls_were_fetched web urljoin :
  (∀ v u,
     let r := scrape_main_components web urljoin v in
     u ∈ visited r → is_Some u ∧ u ∈ fetches (events r)) ∧
  (∀ url depth max_depth v u,
     let r := scrape_nested_structure web urljoin url depth max_depth v in
     u ∈ visited r → u ∈ v ∨ (is_Some u ∧ u ∈ fetches (events r))).
Proof.
  split.
  - intros v u. cbv zeta.
    destruct (scrape_main_components_entries web urljoin v) as (_ & _ & ->).
    rewrite elem_of_union, elem_of_list_to_set.
    intros [Hu|Hu]; [|by apply not_elem_of_empty in Hu].
    revert u Hu. change (adds_are_fetched
                           (events (scrape_main_components web urljoin v))).
    rewrite scrape_main_components_run.
    destruct (web TARGET_URL) as [soup|]; [|by apply adds_are_fetched_silent].
    cbv zeta. simpl. apply adds_are_fetched_fetch.
    apply for_each_events;
      [by apply adds_are_fetched_silent|apply adds_are_fetched_app|].
    apply component_step_adds_fetched.
  - intros url depth max_depth v u. cbv zeta.
    destruct (scrape_nested_structure_entries web urljoin url depth max_depth v)
      as (_ & _ & ->).
    rewrite elem_of_union, elem_of_list_to_set.
    intros [Hu|Hu]; [right|by left].
    by apply (nested_rec_adds_fetched web urljoin (S max_depth - depth)).
Qed.

Lemma X9_visited_urls_were_fetched_witness :
  is_Some (Some corps_url) ∧
  Some corps_url ∈ fetches (events (scrape_main_components nested_web urljoin_root ∅)).
Proof.
  apply (proj1 (X9_visited_urls_were_fetched nested_web urljoin_root) ∅).
  apply elem_of_elements. vm_compute. left.
Defined.

(** ** The metadata of a node *)

Section Pages.
Variable web : string → option Document.
Variable urljoin : string → string → string.

(** A property of nodes that holds of a node of the nested pass whose
    metadata is that of its page and whose children have the property, and
    of a flat item whose metadata is that of its page. *)
Variable Q : Item → Prop.
Variable max_depth : nat.
Hypothesis Q_nested : ∀ name url depth l,
  is_empty name = false → depth ≤ max_depth → Forall (item_forall Q) l →
  Q (mkItem name url (level_item (depth + 1)) (info_of (web url))
       (set_if_nonempty l)).
Hypothesis Q_flat : ∀ name url,
  is_empty name = false →
  Q (mkItem name url flat_item (info_of (web url)) None).

Lemma scrape_flat_structure_forall_page soup base_url v :
  Forall (item_forall Q)
    (result (scrape_flat_structure web urljoin soup base_url v)).
Proof.
  rewrite scrape_flat_structure_closed. simpl.
  induction (select soup SELECTORS.flat_list) as [|x xs IH]; [constructor|].
  simpl. destruct (link_ok x) eqn:Hok; [|done].
  simpl. constructor; [|done].
  unfold item_forall, flat_item_of. simpl. rewrite Forall_singleton.
  apply Q_flat. unfold link_ok in Hok.
  destruct (get_href x); [|done]. by destruct (is_empty (get_text x)).
Qed.

Lemma nested_rec_forall_page k :
  ∀ url depth v,
    Forall (item_forall Q)
      (result (nested_rec web urljoin k url depth max_depth v)).
Proof.
  induction k as [|k IH]; intros url depth v; [constructor|].
  simpl. rewrite nested_body_run.
  destruct (bool_decide (Some url ∈ v)); [constructor|]. simpl.
  destruct (max_depth <? depth) eqn:Hdepth; [constructor|].
  apply Nat.ltb_ge in Hdepth.
  destruct (web url) as [soup|]; [|constructor]. cbv zeta. simpl result.
  apply for_each_result_forall. intros x v0. rewrite nested_step_run.
  destruct (get_href x) as [href|]; [|done].
  destruct (is_empty (get_text x)) eqn:Hname; [done|]. cbv zeta.
  destruct (bool_decide _); [done|]. simpl.
  assert (Hsub : Forall (item_forall Q)
            (result (children_run web urljoin (nested_rec web urljoin k)
                       depth max_depth (resolve urljoin BASE_URL href) v0))).
  { unfold children_run.
    destruct (depth <? max_depth); [|constructor].
    destruct (web (resolve urljoin BASE_URL href)) as [item_soup|];
      [|constructor].
    destruct (has_nested_structure item_soup);
      [apply IH|apply scrape_flat_structure_forall_page]. }
  apply item_forall_built. split; [by apply Q_nested|done].
Qed.

End Pages.

(** X10. In the tree of a run the metadata of every node is the metadata
    of the page behind the node's own URL: for a branch and a subcategory
    that of the page that loaded, for an item at any depth that of its page
    when it loads and none when it does not. *)
Theorem X10_metadata_is_that_of_the_own_page web urljoin v :
  let data := result (scrape_main_components web urljoin v) in
  Forall (λ c, comp_info c = info_of (web (comp_url c))) data ∧
  Forall (λ s, subcat_info s = info_of (web (subcat_url s))) (subcats_of data) ∧
  Forall (λ i, item_info i = info_of (web (item_url i))) (items_of data).
Proof.
  cbv zeta. split; [|split].
  - rewrite scrape_main_components_run.
    destruct (web TARGET_URL) as [soup|]; [|constructor]. cbv zeta. simpl.
    apply for_each_result_forall. intros x v0. rewrite component_step_run.
    destruct (find_h4 x) as [name|]; [|done]. cbv zeta.
    destruct (bool_decide _); [done|].
    destruct (get_href x) as [href|]; simpl; [|done].
    destruct (web (resolve urljoin BASE_URL href)) as [soup_branch|] eqn:Hweb;
      [|done].
    simpl. by rewrite Hweb.
  - apply scrape_main_components_subcats. intros sub_a_tag v0.
    rewrite subcategory_step_run.
    destruct (find_h4 sub_a_tag) as [sub_name|]; [|done]. cbv zeta.
    destruct (get_href sub_a_tag) as [href|]; simpl; [|done].
    destruct (web (resolve urljoin BASE_URL href)) as [sub_soup|] eqn:Hweb;
      [|done].
    simpl. by rewrite Hweb.
  - apply scrape_main_components_items.
    + intros url v0. unfold scrape_nested_structure.
      by apply nested_rec_forall_page.
    + intros soup base_url v0. by apply scrape_flat_structure_forall_page.
Qed.

(** ** Pauses *)

Lemma total_sleep_app es1 es2 :
  total_sleep (es1 ++ es2) = total_sleep es1 + total_sleep es2.
Proof.
  unfold total_sleep. rewrite omap_app.
  induction (omap _ es1) as [|n ns IH]; simpl; [done|]. rewrite IH. lia.
Qed.

Lemma total_sleep_fetch_map {A} (f : A → option string) (l : list A) :
  total_sleep (map (λ x, EvFetch (f x)) l) = 0.
Proof. by induction l. Qed.

Lemma count_where_none {A} (p : A → bool) l :
  Forall (λ x, p x = false) l → count_where p l = 0.
Proof.
  induction 1 as [|x xs Hx _ IH]; [done|].
  by rewrite count_where_cons, Hx, IH.
Qed.

Lemma flat_map_cons_eq {A B} (f : A → list B) x l :
  flat_map f (x :: l) = f x ++ flat_map f l.
Proof. reflexivity. Qed.

Lemma paced_level max_depth name url n info subunits :
  paced max_depth (mkItem name url (level_item n) info subunits) =
  (n <=? max_depth).
Proof. reflexivity. Qed.

Lemma item_nodes_built name url type info l :
  item_nodes (mkItem name url type info (set_if_nonempty l)) =
  mkItem name url type info (set_if_nonempty l) :: flat_map item_nodes l.
Proof. by destruct l. Qed.

Section Pauses.
Variable web : string → option Document.
Variable urljoin : string → string → string.

Lemma scrape_flat_structure_sleep max_depth soup base_url v :
  total_sleep (events (scrape_flat_structure web urljoin soup base_url v)) = 0 ∧
  count_where (paced max_depth)
    (flat_map item_nodes
       (result (scrape_flat_structure web urljoin soup base_url v))) = 0.
Proof.
  split.
  - rewrite scrape_flat_structure_closed. simpl.
    apply (total_sleep_fetch_map (λ i, Some (item_url i))).
  - apply count_where_none, Forall_flat_map_item_nodes.
    by apply scrape_flat_structure_forall.
Qed.

Lemma nested_rec_S k url depth max_depth :
  nested_rec web urljoin (S k) url depth max_depth =
  nested_body web urljoin (nested_rec web urljoin k) url depth max_depth.
Proof. reflexivity. Qed.

Lemma nested_rec_sleep k :
  ∀ url depth max_depth v,
    total_sleep (events (nested_rec web urljoin k url depth max_depth v)) =
    300 * count_where (paced max_depth)
            (flat_map item_nodes
               (result (nested_rec web urljoin k url depth max_depth v))).
Proof.
  induction k as [|k IH]; intros url depth max_depth v; [done|].
  rewrite nested_rec_S, nested_body_run.
  destruct (_ || _); [done|].
  destruct (web url) as [soup|]; [|done]. cbv zeta. simpl result. simpl events.
  change (total_sleep (?a :: ?b :: ?es)) with (total_sleep es).
  apply (for_each_ind _
    (λ _ rs _ es, total_sleep es =
       300 * count_where (paced max_depth) (flat_map item_nodes rs)));
    [done|].
  intros x v0 rs _ e2 He2. rewrite total_sleep_app, He2, nested_step_run.
  destruct (get_href x) as [href|]; [|done].
  destruct (is_empty (get_text x)); [done|]. cbv zeta.
  destruct (bool_decide _); [done|]. simpl result. simpl events.
  change (total_sleep (EvFetch ?u :: ?es)) with (total_sleep es).
  rewrite total_sleep_app, flat_map_cons_eq.
  rewrite item_nodes_built, count_where_app, count_where_cons.
  assert (Hsub :
    total_sleep (events (children_run web urljoin (nested_rec web urljoin k)
                           depth max_depth (resolve urljoin BASE_URL href) v0)) =
    300 * count_where (paced max_depth)
            (flat_map item_nodes
               (result (children_run web urljoin (nested_rec web urljoin k)
                          depth max_depth (resolve urljoin BASE_URL href) v0)))).
  { unfold children_run.
    destruct (depth <? max_depth); [|done].
    destruct (web (resolve urljoin BASE_URL href)) as [item_soup|]; [|done].
    destruct (has_nested_structure item_soup); [apply IH|].
    by destruct (scrape_flat_structure_sleep max_depth item_soup
                   (resolve urljoin BASE_URL href) v0) as [-> ->]. }
  rewrite Hsub, paced_level.
  destruct (Nat.ltb_spec depth max_depth), (Nat.leb_spec (depth + 1) max_depth);
    try lia; cbn [b2n];
    [change (total_sleep [EvSleep 300]) with 300
    |change (total_sleep []) with 0]; lia.
Qed.

Lemma for_each_subcategory_sleep l :
  ∀ v, let r := for_each (subcategory_step web urljoin) l v in
       total_sleep (events r) =
       500 * List.length (result r) +
       300 * count_where (paced 3)
               (flat_map item_nodes
                  (flat_map (λ s, get_list (subcat_units s)) (result r))).
Proof.
  cbv zeta.
  apply (for_each_ind _
    (λ _ rs _ es, total_sleep es =
       500 * List.length rs +
       300 * count_where (paced 3)
               (flat_map item_nodes
                  (flat_map (λ s, get_list (subcat_units s)) rs))));
    [done|].
  intros x v rs _ e2 He2. rewrite total_sleep_app, He2, subcategory_step_run.
  destruct (find_h4 x) as [sub_name|]; [|done]. cbv zeta.
  destruct (_ ≫= web) as [sub_soup|]; [|done].
  destruct (resolve urljoin BASE_URL <$> get_href x) as [sub_href|]; [|done].
  simpl result. simpl events.
  change (total_sleep (EvFetch ?u :: ?es)) with (total_sleep es).
  rewrite total_sleep_app, flat_map_cons_eq. simpl List.length.
  simpl subcat_units.
  rewrite get_list_set_if_nonempty, flat_map_app, count_where_app.
  assert (Hunits :
    total_sleep (events (units_run web urljoin sub_soup sub_href v)) =
    300 * count_where (paced 3)
            (flat_map item_nodes
               (result (units_run web urljoin sub_soup sub_href v)))).
  { unfold units_run, scrape_nested_structure.
    destruct (has_nested_structure sub_soup); [apply nested_rec_sleep|].
    by destruct (scrape_flat_structure_sleep 3 sub_soup sub_href v)
      as [-> ->]. }
  rewrite Hunits. change (total_sleep [EvSleep 500]) with 500. lia.
Qed.

Lemma for_each_component_sleep l :
  ∀ v, let r := for_each (component_step web urljoin) l v in
       total_sleep (events r) =
       1000 * List.length (result r) +
       500 * List.length (subcats_of (result r)) +
       300 * count_where (paced 3) (items_of (result r)).
Proof.
  cbv zeta.
  apply (for_each_ind _
    (λ _ rs _ es, total_sleep es =
       1000 * List.length rs + 500 * List.length (subcats_of rs) +
       300 * count_where (paced 3) (items_of rs)));
    [done|].
  intros x v rs _ e2 He2. rewrite total_sleep_app, He2, component_step_run.
  destruct (find_h4 x) as [name|]; [|done]. cbv zeta.
  destruct (bool_decide _); [done|].
  destruct (_ ≫= web) as [soup_branch|]; [|done].
  destruct (resolve urljoin BASE_URL <$> get_href x) as [href|]; [|done].
  simpl result. simpl events.
  change (total_sleep (EvFetch ?u :: ?es)) with (total_sleep es).
  rewrite total_sleep_app, for_each_subcategory_sleep.
  unfold items_of, units_of, subcats_of. rewrite flat_map_cons_eq.
  simpl List.length. simpl comp_subcategories.
  rewrite get_list_set_if_nonempty.
  rewrite !flat_map_app, !length_app, !count_where_app.
  change (total_sleep [EvSleep 1000; EvAdd by_main (Some href)]) with 1000.
  lia.
Qed.

End Pauses.

(** X11. The time a run sleeps can be read off the tree it returns: one
    second for every branch, half a second for every subcategory and 0.3
    seconds for every node that the nested pass built at a depth below
    [max_depth], that is, for every [level_1_item], [level_2_item] and
    [level_3_item]; flat items and nodes at [max_depth] cost no pause. *)
Theorem X11_pauses_of_a_run web urljoin v :
  let r := scrape_main_components web urljoin v in
  total_sleep (events r) =
  1000 * List.length (result r) +
  500 * List.length (subcats_of (result r)) +
  300 * count_where (paced 3) (items_of (result r)).
Proof.
  cbv zeta. rewrite scrape_main_components_run.
  destruct (web TARGET_URL) as [soup|]; [|done]. cbv zeta. simpl.
  change (total_sleep (EvFetch ?u :: ?es)) with (total_sleep es).
  apply for_each_component_sleep.
Qed.

(** ** The shape of the tree *)

Section Shape.
Variable web : string → option Document.
Variable urljoin : string → string → string.

Lemma scrape_flat_structure_leaves soup base_url v :
  Forall flat_leaf (result (scrape_flat_structure web urljoin soup base_url v)).
Proof.
  rewrite scrape_flat_structure_closed. simpl.
  induction (List.filter link_ok (select soup SELECTORS.flat_list))
    as [|x xs IH]; by constructor.
Qed.

Lemma nested_rec_shape k :
  ∀ url depth max_depth v,
    Forall (nested_at max_depth depth)
      (result (nested_rec web urljoin k url depth max_depth v)).
Proof.
  induction k as [|k IH]; intros url depth max_depth v; [constructor|].
  simpl. rewrite nested_body_run.
  destruct (bool_decide (Some url ∈ v)); [constructor|]. simpl.
  destruct (max_depth <? depth) eqn:Hdepth; [constructor|].
  apply Nat.ltb_ge in Hdepth.
  destruct (web url) as [soup|]; [|constructor]. cbv zeta. simpl result.
  apply for_each_result_forall. intros x v0. rewrite nested_step_run.
  destruct (get_href x) as [href|]; [|done].
  destruct (is_empty (get_text x)); [done|]. cbv zeta.
  destruct (bool_decide _); [done|]. simpl.
  destruct (result (children_run web urljoin (nested_rec web urljoin k)
                      depth max_depth (resolve urljoin BASE_URL href) v0))
    as [|c cs] eqn:Hsub; simpl; [by constructor|].
  unfold children_run in Hsub.
  destruct (depth <? max_depth) eqn:Hlt; [|done].
  apply Nat.ltb_lt in Hlt.
  destruct (web (resolve urljoin BASE_URL href)) as [item_soup|]; [|done].
  constructor; [done|done|]. rewrite <- Hsub.
  destruct (has_nested_structure item_soup).
  - right. replace (S depth) with (depth + 1) by lia. apply IH.
  - left. apply scrape_flat_structure_leaves.
Qed.

End Shape.

(** X12. The tree is layered.  An invocation of the nested pass at [depth]
    returns nodes tagged [level_{depth+1}_item]; such a node has subunits
    only when it was found below [max_depth], and then its subunits are
    either all flat items (tagged [flat_item], without subunits) or all
    nodes of the next level, never a mix.  In the tree of a run the units
    of a subcategory are either all flat items or all nodes of the first
    level. *)
Theorem X12_tree_is_layered web urljoin :
  (∀ url depth max_depth v,
     Forall (nested_at max_depth depth)
       (result (scrape_nested_structure web urljoin url depth max_depth v))) ∧
  (∀ v,
     Forall (λ s, Forall flat_leaf (get_list (subcat_units s)) ∨
                  Forall (nested_at 3 0) (get_list (subcat_units s)))
       (subcats_of (result (scrape_main_components web urljoin v)))).
Proof.
  split.
  - intros url depth max_depth v. unfold scrape_nested_structure.
    apply nested_rec_shape.
  - intros v. apply scrape_main_components_subcats. intros sub_a_tag v0.
    rewrite subcategory_step_run.
    destruct (find_h4 sub_a_tag) as [sub_name|]; [|done]. cbv zeta.
    destruct (_ ≫= web) as [sub_soup|]; [|done].
    destruct (resolve urljoin BASE_URL <$> get_href sub_a_tag) as [sub_href|];
      [|done].
    simpl. rewrite get_list_set_if_nonempty. unfold units_run.
    destruct (has_nested_structure sub_soup).
    + right. unfold scrape_nested_structure. apply nested_rec_shape.
    + left. apply scrape_flat_structure_leaves.
Qed.

(** ** No URL is entered below itself *)

Lemma fresh_and_acyclic_mono v v' n :
  v ⊆ v' → fresh_and_acyclic v' n → fresh_and_acyclic v n.
Proof. intros Hsub [Hfresh Hrep]. split; [|done]. set_solver. Qed.

Lemma flat_leaf_fresh_and_acyclic v i :
  flat_leaf i → item_forall (fresh_and_acyclic v) i.
Proof.
  destruct i as [name url type info subunits]. intros [Htype Hsub].
  simpl in *. subst. unfold item_forall. simpl. rewrite Forall_singleton.
  split; [done|constructor].
Qed.

Section Acyclic.
Variable web : string → option Document.
Variable urljoin : string → string → string.

Lemma nested_rec_grows k url depth max_depth v :
  v ⊆ visited (nested_rec web urljoin k url depth max_depth v).
Proof.
  destruct (nested_rec_entries web urljoin k url depth max_depth v)
    as (_ & _ & ->).
  set_solver.
Qed.

Lemma children_run_grows k depth max_depth href v :
  v ⊆ visited (children_run web urljoin (nested_rec web urljoin k)
                 depth max_depth href v).
Proof.
  unfold children_run.
  destruct (depth <? max_depth); [|done].
  destruct (web href) as [soup|]; [|done].
  destruct (has_nested_structure soup); [apply nested_rec_grows|].
  by rewrite scrape_flat_structure_closed.
Qed.

Lemma nested_step_grows k depth max_depth element v :
  v ⊆ visited (nested_step web urljoin (nested_rec web urljoin k)
                 depth max_depth element v).
Proof.
  rewrite nested_step_run.
  destruct (get_href element) as [href|]; [|done].
  destruct (is_empty (get_text element)); [done|]. cbv zeta.
  destruct (bool_decide _); [done|]. apply children_run_grows.
Qed.

Lemma nested_rec_fresh k :
  ∀ url depth max_depth v,
    Forall (item_forall (fresh_and_acyclic ({[Some url]} ∪ v)))
      (result (nested_rec web urljoin k url depth max_depth v)).
Proof.
  induction k as [|k IH]; intros url depth max_depth v; [constructor|].
  rewrite nested_rec_S, nested_body_run.
  destruct (_ || _); [constructor|].
  destruct (web url) as [soup|]; [|constructor]. cbv zeta. simpl result.
  apply (for_each_ind _
    (λ v0 rs _ _, Forall (item_forall (fresh_and_acyclic v0)) rs));
    [constructor|].
  intros x v0 rs _ _ Hrs.
  assert (Hrs0 : Forall (item_forall (fresh_and_acyclic v0)) rs).
  { eapply Forall_impl; [exact Hrs|]. intros i Hi.
    eapply Forall_impl; [exact Hi|]. intros n.
    apply fresh_and_acyclic_mono, nested_step_grows. }
  clear Hrs. rewrite nested_step_run.
  destruct (get_href x) as [href|]; [|done].
  destruct (is_empty (get_text x)); [done|]. cbv zeta.
  destruct (bool_decide _) eqn:Hseen; [done|].
  apply bool_decide_eq_false in Hseen. simpl. constructor; [|done].
  assert (Hsub :
    Forall (item_forall
              (fresh_and_acyclic ({[Some (resolve urljoin BASE_URL href)]} ∪ v0)))
      (result (children_run web urljoin (nested_rec web urljoin k) depth
                 max_depth (resolve urljoin BASE_URL href) v0))).
  { unfold children_run.
    destruct (depth <? max_depth); [|constructor].
    destruct (web (resolve urljoin BASE_URL href)) as [item_soup|];
      [|constructor].
    destruct (has_nested_structure item_soup); [apply IH|].
    eapply Forall_impl; [apply scrape_flat_structure_leaves|].
    intros i. apply flat_leaf_fresh_and_acyclic. }
  apply item_forall_built. split; [split|].
  - done.
  - unfold no_level_repeat, descendants.
    rewrite item_nodes_built. simpl.
    apply Forall_flat_map_item_nodes.
    eapply Forall_impl; [exact Hsub|]. intros i Hi.
    eapply Forall_impl; [exact Hi|]. intros m [Hfresh _] Hlevel Heq.
    apply (Hfresh Hlevel). rewrite Heq. set_solver.
  - eapply Forall_impl; [exact Hsub|]. intros i Hi.
    eapply Forall_impl; [exact Hi|]. intros n.
    apply fresh_and_acyclic_mono. set_solver.
Qed.

End Acyclic.

(** X13. The visited set breaks cycles.  In what an invocation of the
    nested pass returns, at any depth, no node of the nested pass has a URL
    that was visited before the invocation, none has the URL of the
    invocation itself, and none has the URL of a node of the nested pass
    above it. *)
Theorem X13_nested_pass_never_reenters_an_ancestor
    web urljoin url depth max_depth v :
  Forall (item_forall (λ n,
            (is_level n = true →
             (Some (item_url n) ∉ v) ∧ item_url n ≠ url) ∧
            no_level_repeat n))
    (result (scrape_nested_structure web urljoin url depth max_depth v)).
Proof.
  unfold scrape_nested_structure.
  eapply Forall_impl; [apply nested_rec_fresh|]. intros i Hi.
  eapply Forall_impl; [exact Hi|]. intros n [Hfresh Hrep]. split; [|done].
  intros Hlevel. specialize (Hfresh Hlevel). split; [set_solver|].
  intros Heq. rewrite Heq in Hfresh. set_solver.
Qed.

Lemma X13_nested_pass_never_reenters_an_ancestor_witness :
  (Some corps_url ∉ (∅ : Visited)) ∧ corps_url ≠ forscom_url.
Proof.
  pose proof (X13_nested_pass_never_reenters_an_ancestor nested_web
                urljoin_root forscom_url 0 3 ∅) as Hall.
  apply Forall_inv in Hall. apply Forall_inv in Hall.
  destruct Hall as [Hfresh _]. apply Hfresh. reflexivity.
Defined.

(** ** Children follow the classification of the page *)

Lemma nested_at_is_level max_depth depth i :
  nested_at max_depth depth i → is_level i = true.
Proof. by intros []. Qed.

Section Classified.
Variable web : string → option Document.
Variable urljoin : string → string → string.

Lemma flat_leaf_follows i :
  flat_leaf i → item_forall (children_follow_classifier web) i.
Proof.
  destruct i as [name url type info subunits]. intros [_ Hsub].
  simpl in Hsub. subst. unfold item_forall. simpl.
  by rewrite Forall_singleton.
Qed.

Lemma nested_rec_classified k :
  ∀ url depth max_depth v,
    Forall (item_forall (children_follow_classifier web))
      (result (nested_rec web urljoin k url depth max_depth v)).
Proof.
  induction k as [|k IH]; intros url depth max_depth v; [constructor|].
  rewrite nested_rec_S, nested_body_run.
  destruct (_ || _); [constructor|].
  destruct (web url) as [soup|]; [|constructor]. cbv zeta. simpl result.
  apply for_each_result_forall. intros x v0. rewrite nested_step_run.
  destruct (get_href x) as [href|]; [|done].
  destruct (is_empty (get_text x)); [done|]. cbv zeta.
  destruct (bool_decide _); [done|]. simpl.
  apply item_forall_built. unfold children_run.
  destruct (depth <? max_depth); [|by split; [|constructor]].
  destruct (web (resolve urljoin BASE_URL href)) as [item_soup|] eqn:Hweb;
    [|by split; [|constructor]].
  unfold children_follow_classifier. simpl item_subunits. simpl item_url.
  rewrite Hweb.
  destruct (has_nested_structure item_soup) eqn:Hnested.
  - split; [|apply IH].
    destruct (result (nested_rec web urljoin k _ (depth + 1) max_depth v0))
      as [|c cs] eqn:Hsub; [done|]. simpl. rewrite <- Hsub.
    eapply Forall_impl; [apply (nested_rec_shape web urljoin)|].
    intros i. apply nested_at_is_level.
  - split.
    + destruct (result (scrape_flat_structure web urljoin item_soup _ v0))
        as [|c cs] eqn:Hsub; [done|]. simpl. rewrite <- Hsub.
      apply scrape_flat_structure_leaves.
    + eapply Forall_impl; [apply (scrape_flat_structure_leaves web urljoin)|].
      intros i. apply flat_leaf_follows.
Qed.

End Classified.

(** X14. Classify, then branch: in what the nested pass returns, a node
    has subunits only if its own page loaded, and then the subunits are
    nodes of the nested pass when [has_nested_structure] holds of that page
    and flat items when it does not.  In the tree of a run the units of a
    subcategory follow the classification of the subcategory's page in the
    same way. *)
Theorem X14_children_follow_the_classifier web urljoin :
  (∀ url depth max_depth v,
     Forall (item_forall (children_follow_classifier web))
       (result (scrape_nested_structure web urljoin url depth max_depth v))) ∧
  (∀ v,
     Forall (λ s, match web (subcat_url s) with
                  | Some sub_soup =>
                      if has_nested_structure sub_soup
                      then Forall (nested_at 3 0) (get_list (subcat_units s))
                      else Forall flat_leaf (get_list (subcat_units s))
                  | None => False
                  end)
       (subcats_of (result (scrape_main_components web urljoin v)))).
Proof.
  split.
  - intros url depth max_depth v. unfold scrape_nested_structure.
    apply nested_rec_classified.
  - intros v. apply scrape_main_components_subcats. intros sub_a_tag v0.
    rewrite subcategory_step_run.
    destruct (find_h4 sub_a_tag) as [sub_name|]; [|done]. cbv zeta.
    destruct (get_href sub_a_tag) as [href|]; simpl; [|done].
    destruct (web (resolve urljoin BASE_URL href)) as [sub_soup|] eqn:Hweb;
      [|done].
    simpl. rewrite Hweb, get_list_set_if_nonempty. unfold units_run.
    destruct (has_nested_structure sub_soup).
    + unfold scrape_nested_structure. apply nested_rec_shape.
    + apply scrape_flat_structure_leaves.
Qed.

(** ** Every node was requested *)

Lemma fetched_app_l es1 es2 url : fetched es1 url → fetched (es1 ++ es2) url.
Proof. unfold fetched. rewrite fetches_app, elem_of_app. auto. Qed.

Lemma fetched_app_r es1 es2 url : fetched es2 url → fetched (es1 ++ es2) url.
Proof. unfold fetched. rewrite fetches_app, elem_of_app. auto. Qed.

Lemma fetched_cons e es url : fetched es url → fetched (e :: es) url.
Proof. apply (fetched_app_r [e]). Qed.

Lemma fetched_here es url : fetched (EvFetch (Some url) :: es) url.
Proof. unfold fetched, fetches. simpl. by left. Qed.

Lemma tree_fetched_impl (es es' : list event) (items : list Item) :
  (∀ url, fetched es url → fetched es' url) →
  Forall (item_forall (λ n, fetched es (item_url n))) items →
  Forall (item_forall (λ n, fetched es' (item_url n))) items.
Proof.
  intros Himpl Hitems. eapply Forall_impl; [exact Hitems|]. intros i Hi.
  eapply Forall_impl; [exact Hi|]. intros n. apply Himpl.
Qed.

Section Requested.
Variable web : string → option Document.
Variable urljoin : string → string → string.

Lemma scrape_flat_structure_fetched soup base_url v :
  let r := scrape_flat_structure web urljoin soup base_url v in
  Forall (item_forall (λ n, fetched (events r) (item_url n))) (result r).
Proof.
  cbv zeta. rewrite scrape_flat_structure_closed. simpl.
  induction (List.filter link_ok (select soup SELECTORS.flat_list))
    as [|x xs IH]; [constructor|].
  simpl. constructor.
  - unfold item_forall. simpl. rewrite Forall_singleton. apply fetched_here.
  - eapply tree_fetched_impl; [|exact IH]. intros url. apply fetched_cons.
Qed.

Lemma nested_rec_fetched k :
  ∀ url depth max_depth v,
    let r := nested_rec web urljoin k url depth max_depth v in
    Forall (item_forall (λ n, fetched (events r) (item_url n))) (result r).
Proof.
  induction k as [|k IH]; intros url depth max_depth v; [constructor|].
  cbv zeta. rewrite nested_rec_S, nested_body_run.
  destruct (_ || _); [constructor|].
  destruct (web url) as [soup|]; [|constructor]. cbv zeta.
  simpl result. simpl events.
  eapply tree_fetched_impl;
    [intros u Hu; apply fetched_cons, fetched_cons, Hu|].
  apply (for_each_ind _
    (λ _ rs _ es, Forall (item_forall (λ n, fetched es (item_url n))) rs));
    [constructor|].
  intros x v0 rs _ e2 Hrs.
  assert (Hrest : Forall (item_forall (λ n,
             fetched (events (nested_step web urljoin (nested_rec web urljoin k)
                                depth max_depth x v0) ++ e2) (item_url n))) rs).
  { eapply tree_fetched_impl; [|exact Hrs]. intros u. apply fetched_app_r. }
  clear Hrs. revert Hrest. rewrite nested_step_run.
  destruct (get_href x) as [href|]; [|done].
  destruct (is_empty (get_text x)); [done|]. cbv zeta.
  destruct (bool_decide _); [done|]. simpl result. simpl events.
  intros Hrest. constructor; [|done].
  apply item_forall_built. split; [apply fetched_here|].
  eapply tree_fetched_impl;
    [intros u Hu; apply fetched_app_l, fetched_cons, fetched_app_l, Hu|].
  unfold children_run.
  destruct (depth <? max_depth); [|constructor].
  destruct (web (resolve urljoin BASE_URL href)) as [item_soup|];
    [|constructor].
  destruct (has_nested_structure item_soup);
    [apply IH|apply scrape_flat_structure_fetched].
Qed.

End Requested.

(** X15. Every node that the nested pass or the flat extraction returns,
    at any depth, has a URL that the same call requested: the tree holds
    no URL that was not fetched. *)
Theorem X15_every_node_was_requested web urljoin :
  (∀ url depth max_depth v,
     let r := scrape_nested_structure web urljoin url depth max_depth v in
     Forall (item_forall (λ n, fetched (events r) (item_url n))) (result r)) ∧
  (∀ soup base_url v,
     let r := scrape_flat_structure web urljoin soup base_url v in
     Forall (item_forall (λ n, fetched (events r) (item_url n))) (result r)).
Proof.
  split.
  - intros url depth max_depth v. unfold scrape_nested_structure.
    apply nested_rec_fetched.
  - apply scrape_flat_structure_fetched.
Qed.
